(** * drive_analysis: a shallow embedding of [google_drive_analysis/drive_analysis.py]

    The script loads a table with pandas, summarises one column and
    writes a text summary, a histogram and a box plot.  The two
    functions of interest are [load_dataframe] and [analyse_dataframe];
    the pandas, pathlib and pyplot operations they call are modelled
    below, each next to the description of the library behaviour it
    follows. *)

From Stdlib Require Import QArith Qcanon Ascii.
From stdpp Require Import gmap strings sorting numbers list.

(** ** Series: the pandas operations on one column

    A pandas Series is modelled by the list of its cells in row order;
    a missing cell (NaN / None) is [None]. *)

Module Series.
Section series.
Context {A : Type} `{EqDecision A}.
Context (R : relation A) `{!RelDecision R}.

(** [Series.dropna()]: the non-missing cells, in row order. *)
Definition dropna (s : list (option A)) : list A := omap id s.

(** [Series.count()]: the number of non-missing cells. *)
Definition count (s : list (option A)) : nat :=
  length (filter is_Some s).

(** One step of the hash-table pass of [value_counts]: an already seen
    key has its counter incremented, a new key is appended, so keys
    stay in order of first appearance. *)
Fixpoint bump (x : A) (t : list (A * nat)) : list (A * nat) :=
  match t with
  | [] => [(x, 1)]
  | (k, c) :: t' => if decide (k = x) then (k, S c) :: t' else (k, c) :: bump x t'
  end.

(** The counting pass with [dropna=True]: missing cells are skipped. *)
Definition value_count (s : list (option A)) : list (A * nat) :=
  foldl (fun t cell => match cell with Some x => bump x t | None => t end) [] s.

Definition max_count (t : list (A * nat)) : nat :=
  foldr (fun kc m => Nat.max kc.2 m) 0 t.

(** [Series.mode()] (with the default [dropna=True]): the keys whose
    counter is maximal, returned in sorted order. *)
Definition mode (s : list (option A)) : list A :=
  let t := value_count s in
  let m := max_count t in
  merge_sort R (fst <$> filter (fun kc => kc.2 = m) t).

(** [Series.empty] *)
Definition empty {B} (s : list B) : bool :=
  match s with [] => true | _ => false end.

(** For the statements below: how often [x] occurs in a column, and
    the counter a table holds for a key (0 when the key is absent). *)
Definition occ (x : A) (s : list (option A)) : nat :=
  length (filter (fun cell => cell = Some x) s).

Fixpoint get (k : A) (t : list (A * nat)) : nat :=
  match t with
  | [] => 0
  | (k', c) :: t' => if decide (k' = k) then c else get k t'
  end.

(** A counting table is good when no key is repeated and every counter
    is positive. *)
Definition good (t : list (A * nat)) : Prop :=
  NoDup t.*1 ∧ Forall (fun kc => 0 < kc.2) t.
End series.
End Series.

(** ** Numeric reductions (pandas [nanops]) and [Series.describe]

    Numbers are exact rationals; a statistic is a number, the square
    root of a number (the standard deviation is the root of the
    variance), a string (the [top] entry of a categorical summary) or
    NaN. *)

Inductive stat :=
  | Num (x : Qc)
  | Sqrt (x : Qc)
  | Txt (s : string)
  | NaN.

Definition Qc_of_nat (n : nat) : Qc := Qc_of_Z (Z.of_nat n).

Module Nanops.
Local Open Scope Qc_scope.

(** Missing cells are filled with 0 before summing. *)
Definition nansum (s : list (option Qc)) : Qc :=
  foldr (fun cell acc => default 0 cell + acc) 0 s.

Definition nanmean (s : list (option Qc)) : stat :=
  match Series.count s with
  | O => NaN
  | S _ as n => Num (nansum s / Qc_of_nat n)
  end.

(** Squared deviations from the mean, a missing cell contributing 0. *)
Definition sqdev (avg : Qc) (s : list (option Qc)) : Qc :=
  foldr (fun cell acc =>
           match cell with
           | Some x => (avg - x) * (avg - x) + acc
           | None => acc
           end) 0 s.

(** [nanvar] with [ddof=1]: NaN unless there are at least two values. *)
Definition nanvar (s : list (option Qc)) : option Qc :=
  match Series.count s with
  | S (S _ as d) as n =>
      let avg := nansum s / Qc_of_nat n in
      Some (sqdev avg s / Qc_of_nat d)
  | _ => None
  end.

Definition nanstd (s : list (option Qc)) : stat :=
  match nanvar s with Some v => Sqrt v | None => NaN end.

Definition Qcmin (x y : Qc) : Qc := if decide (x ≤ y) then x else y.
Definition Qcmax (x y : Qc) : Qc := if decide (x ≤ y) then y else x.

(** [nanmin] / [nanmax]: the extremum of the non-missing cells. *)
Definition nanreduce (f : Qc → Qc → Qc) (s : list (option Qc)) : option Qc :=
  foldr (fun cell acc =>
           match cell, acc with
           | Some x, Some y => Some (f x y)
           | Some x, None => Some x
           | None, _ => acc
           end) None s.

Definition of_option (o : option Qc) : stat :=
  match o with Some x => Num x | None => NaN end.

Definition nanmin (s : list (option Qc)) : stat := of_option (nanreduce Qcmin s).
Definition nanmax (s : list (option Qc)) : stat := of_option (nanreduce Qcmax s).

(** [Series.quantile(num/den)] with linear interpolation: the missing
    cells are masked out, the rest sorted, and the value at the virtual
    index [(n-1) * num/den] interpolated between its two neighbours. *)
Definition percentile (num den : nat) (v : list Qc) : option Qc :=
  let a := merge_sort Qcle v in
  let m := ((length a - 1) * num)%nat in
  let lo := (m / den)%nat in
  let r := (m mod den)%nat in
  match a !! lo with
  | None => None
  | Some x =>
      match a !! S lo with
      | None => Some x
      | Some y => Some (x + (y - x) * (Qc_of_nat r / Qc_of_nat den))
      end
  end.

Definition quantile (num den : nat) (s : list (option Qc)) : stat :=
  of_option (percentile num den (Series.dropna s)).
End Nanops.

(** [Series.describe()] of a numeric column: a Series of eight labelled
    statistics, in this order. *)
Definition describe_numeric (s : list (option Qc)) : list (string * stat) :=
  [ ("count", Num (Qc_of_nat (Series.count s)));
    ("mean", Nanops.nanmean s);
    ("std", Nanops.nanstd s);
    ("min", Nanops.nanmin s);
    ("25%", Nanops.quantile 1 4 s);
    ("50%", Nanops.quantile 2 4 s);
    ("75%", Nanops.quantile 3 4 s);
    ("max", Nanops.nanmax s) ].

(** [summary[label]] *)
Fixpoint item (label : string) (s : list (string * stat)) : option stat :=
  match s with
  | [] => None
  | (k, v) :: s' => if decide (k = label) then Some v else item label s'
  end.

(** ** Columns and tables

    A column is either numeric (pandas dtype int64 / float64) or textual
    (dtype object holding strings); a DataFrame maps column names to
    columns. *)

Inductive Column :=
  | NumCol (s : list (option Qc))
  | StrCol (s : list (option string)).

Inductive scalar :=
  | SNum (x : Qc)
  | SStr (s : string).

Abbreviation DataFrame := (gmap string Column).

Definition is_numeric (c : Column) : bool :=
  match c with NumCol _ => true | StrCol _ => false end.

(** [Series.mode()] on either kind of column: numbers are ordered by
    value, strings by code point. *)
Definition col_mode (c : Column) : list scalar :=
  match c with
  | NumCol s => SNum <$> Series.mode Qcle s
  | StrCol s => SStr <$> Series.mode String.le s
  end.

Definition col_values (c : Column) : list scalar :=
  match c with
  | NumCol s => SNum <$> Series.dropna s
  | StrCol s => SStr <$> Series.dropna s
  end.

(** ** Strings and paths *)

Definition nl : string := String (ascii_of_nat 10) "".

Fixpoint spaces (n : nat) : string :=
  match n with O => "" | S n' => String " " (spaces n') end.

(** [str.ljust(w)] *)
Definition ljust (w : nat) (s : string) : string :=
  s +:+ spaces (w - String.length s).

(** [str.rfind(c)], [None] standing for -1. *)
Fixpoint rfind (c : ascii) (s : string) : option nat :=
  match s with
  | EmptyString => None
  | String a s' =>
      match rfind c s' with
      | Some i => Some (S i)
      | None => if decide (a = c) then Some 0 else None
      end
  end.

(** [str.lower()] on the ASCII letters; no character outside ASCII
    lowers to one of the letters of ".xls" or ".xlsx". *)
Definition lower_ascii (a : ascii) : ascii :=
  let n := nat_of_ascii a in
  if decide (65 ≤ n ≤ 90) then ascii_of_nat (n + 32) else a.

Fixpoint lower (s : string) : string :=
  match s with
  | EmptyString => EmptyString
  | String a s' => String (lower_ascii a) (lower s')
  end.

(** A [pathlib.Path] is the list of its components, the final component
    first, so that the parent of [name :: p] is [p]; the empty list is
    the directory the relative paths start from. *)
Abbreviation path := (list string).

(** [p / name] *)
Definition joinpath (p : path) (name : string) : path := name :: p.
Infix "//" := joinpath (at level 40, left associativity).

(** [Path.name] and [Path.suffix]. *)
Definition name (p : path) : string :=
  match p with [] => "" | n :: _ => n end.

Definition suffix (p : path) : string :=
  let n := name p in
  match rfind "." n with
  | Some i =>
      if decide (0 < i < String.length n - 1)
      then String.substring i (String.length n - i) n
      else ""
  | None => ""
  end.

(** [str(path)] *)
Definition path_str (p : path) : string :=
  match p with
  | [] => "."
  | _ => String.concat "/" (rev p)
  end.

(** ** Exceptions, the world, and the monad of effects *)

Inductive exn :=
  | KeyError (key : string)
  | IndexError
  | ValueError (msg : string)
  | TypeError
  | ParserError
  | FileNotFoundError (p : path)
  | FileExistsError (p : path)
  | NotADirectoryError (p : path)
  | IsADirectoryError (p : path).

Inductive node :=
  | Dir
  | File (data : string).

(** What pyplot holds of a figure. *)
Inductive artist :=
  | Hist (values : list scalar) (bins : nat) (edgecolor : string)
  | Box (label : string) (values : list Qc)
  | Grid.

Record figure := {
  figsize : nat * nat;
  artists : list artist;
  title : string;
  xlabel : string;
  ylabel : string;
  tight : bool
}.

(** The file system, the stack of open pyplot figures (the current one
    first) and the lines printed so far. *)
Record world := {
  fs : gmap path node;
  figures : list figure;
  stdout : list string
}.

Definition M (A : Type) : Type := world → (exn + A) * world.

Definition raise {A} (e : exn) : M A := fun w => (inl e, w).

#[export] Instance M_ret : MRet M := fun A a w => (inr a, w).
#[export] Instance M_bind : MBind M := fun A B k m w =>
  match m w with
  | (inr a, w') => k a w'
  | (inl e, w') => (inl e, w')
  end.

Definition set_fs (f : gmap path node) (w : world) : world :=
  {| fs := f; figures := figures w; stdout := stdout w |}.
Definition set_figures (l : list figure) (w : world) : world :=
  {| fs := fs w; figures := l; stdout := stdout w |}.

(** [print(line)] *)
Definition print (line : string) : M unit :=
  fun w => (inr (), {| fs := fs w; figures := figures w; stdout := stdout w ++ [line] |}).

(** *** The file system: [pathlib] and [open] *)

(** The starting directory always exists. *)
Definition node_at (f : gmap path node) (p : path) : option node :=
  match p with [] => Some Dir | _ => f !! p end.

Definition is_dir (f : gmap path node) (p : path) : bool :=
  match node_at f p with Some Dir => true | _ => false end.

(** [Path.parent]; the starting directory is its own parent. *)
Definition parent (p : path) : path := tail p.

(** [os.mkdir(p)] *)
Definition os_mkdir (p : path) (f : gmap path node) : exn + gmap path node :=
  match node_at f p with
  | Some _ => inl (FileExistsError p)
  | None =>
      match node_at f (parent p) with
      | Some Dir => inr (<[p := Dir]> f)
      | Some (File _) => inl (NotADirectoryError p)
      | None => inl (FileNotFoundError p)
      end
  end.

(** [Path.mkdir(parents=False, exist_ok=True)]: an [OSError] other than
    [FileNotFoundError] is swallowed when the path is a directory. *)
Definition mkdir_exist_ok (p : path) (f : gmap path node) : exn + gmap path node :=
  match os_mkdir p f with
  | inr f' => inr f'
  | inl (FileNotFoundError p') => inl (FileNotFoundError p')
  | inl e => if is_dir f p then inr f else inl e
  end.

(** [Path.mkdir(parents=True, exist_ok=True)]: on [FileNotFoundError]
    the parent is created first (recursively) and the directory itself
    after it. *)
Fixpoint mkdir_parents (p : path) (f : gmap path node) : exn + gmap path node :=
  match os_mkdir p f with
  | inr f' => inr f'
  | inl (FileNotFoundError p') =>
      match p with
      | [] => inl (FileNotFoundError p')
      | _ :: up =>
          match mkdir_parents up f with
          | inl e => inl e
          | inr f1 => mkdir_exist_ok p f1
          end
      end
  | inl e => if is_dir f p then inr f else inl e
  end.

Definition mkdir (p : path) : M unit := fun w =>
  match mkdir_parents p (fs w) with
  | inl e => (inl e, w)
  | inr f => (inr (), set_fs f w)
  end.

(** [open(p, "w")] creates the file or truncates it. *)
Definition open_w (p : path) : M unit := fun w =>
  match node_at (fs w) p with
  | Some Dir => (inl (IsADirectoryError p), w)
  | _ =>
      match node_at (fs w) (parent p) with
      | Some Dir => (inr (), set_fs (<[p := File ""]> (fs w)) w)
      | Some (File _) => (inl (NotADirectoryError p), w)
      | None => (inl (FileNotFoundError p), w)
      end
  end.

Definition append_data (s : string) (n : node) : node :=
  match n with Dir => Dir | File d => File (d +:+ s) end.

(** [fh.write(s)] on the handle opened at [p]. *)
Definition write (p : path) (s : string) : M unit := fun w =>
  (inr (), set_fs (alter (append_data s) p (fs w)) w).

(** Reading a file whole. *)
Definition read_bytes (p : path) : M string := fun w =>
  match node_at (fs w) p with
  | Some (File d) => (inr d, w)
  | Some Dir => (inl (IsADirectoryError p), w)
  | None => (inl (FileNotFoundError p), w)
  end.

(** *** pyplot: a stack of open figures *)

Definition new_figure (size : nat * nat) : figure :=
  {| figsize := size; artists := []; title := ""; xlabel := ""; ylabel := "";
     tight := false |}.

Definition modify_figures (g : list figure → list figure) : M unit := fun w =>
  (inr (), set_figures (g (figures w)) w).

(** [plt.figure(figsize=size)] *)
Definition plt_figure (size : nat * nat) : M unit :=
  modify_figures (cons (new_figure size)).

(** [plt.gcf()]: the current figure, opened on demand. *)
Definition gcf : M figure := fun w =>
  match figures w with
  | fig :: _ => (inr fig, w)
  | [] => (inr (new_figure (6, 4)), set_figures [new_figure (6, 4)] w)
  end.

(** A pyplot call that changes the current figure. *)
Definition on_current (f : figure → figure) : M unit :=
  gcf ;; modify_figures (fun figs => (f <$> take 1 figs) ++ drop 1 figs).

Definition add_artist (a : artist) (fig : figure) : figure :=
  {| figsize := figsize fig; artists := artists fig ++ [a]; title := title fig;
     xlabel := xlabel fig; ylabel := ylabel fig; tight := tight fig |}.

Definition plt_title (s : string) : M unit :=
  on_current (fun fig =>
    {| figsize := figsize fig; artists := artists fig; title := s;
       xlabel := xlabel fig; ylabel := ylabel fig; tight := tight fig |}).

Definition plt_xlabel (s : string) : M unit :=
  on_current (fun fig =>
    {| figsize := figsize fig; artists := artists fig; title := title fig;
       xlabel := s; ylabel := ylabel fig; tight := tight fig |}).

Definition plt_ylabel (s : string) : M unit :=
  on_current (fun fig =>
    {| figsize := figsize fig; artists := artists fig; title := title fig;
       xlabel := xlabel fig; ylabel := s; tight := tight fig |}).

Definition plt_tight_layout : M unit :=
  on_current (fun fig =>
    {| figsize := figsize fig; artists := artists fig; title := title fig;
       xlabel := xlabel fig; ylabel := ylabel fig; tight := true |}).

(** [plt.close()] *)
Definition plt_close : M unit := modify_figures (drop 1).

(** The eight bytes every PNG file starts with. *)
Definition png_signature : string :=
  String "137" (String "P" (String "N" (String "G"
    (String "013" (String "010" (String "026" (String "010" ""))))))).

(** ** The program

    What the libraries do with bytes and with number formatting is left
    open: the two parsers, the categorical [describe], the renderers of
    numbers and the PNG encoder are parameters of the development. *)

(** What [load_dataframe] can return: pandas hands back one DataFrame,
    or a dict from sheet names to DataFrames. *)
Inductive loaded :=
  | Frame (df : DataFrame)
  | Sheets (d : list (string * DataFrame)).

Section program.
(** The CSV parser of [pd.read_csv]. *)
Variable parse_csv : string → option DataFrame.
(** The workbook reader behind [pd.read_excel]: the sheets in workbook
    order, each with its name. *)
Variable parse_excel : string → option (list (string * DataFrame)).
(** [Series.describe()] of an object column (count, unique, top, freq). *)
Variable describe_object : list (option string) → list (string * stat).
(** The values column of [Series.to_string()]: the cell of row [i],
    formatted together with the other cells. *)
Variable format_values : list stat → nat → string.
(** [str(x)] of a number. *)
Variable str_number : Qc → string.
(** The image data after the PNG signature. *)
Variable png_encode : figure → string.
(** Whether the installed matplotlib draws string data as categories. *)
Variable hist_accepts_text : bool.

(** *** pandas input *)

(** [pd.read_csv(p)] *)
Definition read_csv (p : path) : M DataFrame :=
  d ← read_bytes p;
  match parse_csv d with
  | Some df => mret df
  | None => raise ParserError
  end.

(** The sheet called [n] of a workbook. *)
Fixpoint sheet_by_name (n : string) (wb : list (string * DataFrame)) : option DataFrame :=
  match wb with
  | [] => None
  | (k, df) :: wb' => if decide (k = n) then Some df else sheet_by_name n wb'
  end.

(** [pd.read_excel(p, sheet_name=sheet)]: a sheet name selects that
    sheet; [None] asks for all sheets and yields the dict of them. *)
Definition read_excel (p : path) (sheet : option string) : M loaded :=
  d ← read_bytes p;
  match parse_excel d with
  | None => raise (ValueError "Excel file format cannot be determined")
  | Some wb =>
      match sheet with
      | None => mret (Sheets wb)
      | Some n =>
          match sheet_by_name n wb with
          | Some df => mret (Frame df)
          | None => raise (ValueError "Worksheet not found")
          end
      end
  end.

Definition load_dataframe (data_path : path) (sheet_name : option string) : M loaded :=
  if bool_decide (lower (suffix data_path) ∈ [".xls"; ".xlsx"])
  then read_excel data_path sheet_name
  else df ← read_csv data_path; mret (Frame df).
(** *** pandas on one column *)

(** [df[column]] *)
Definition getitem (df : DataFrame) (column : string) : M Column :=
  match df !! column with
  | Some c => mret c
  | None => raise (KeyError column)
  end.

(** [Series.describe()] *)
Definition describe (c : Column) : list (string * stat) :=
  match c with
  | NumCol s => describe_numeric s
  | StrCol s => describe_object s
  end.

(** [Series.iloc[i]] *)
Definition iloc {B} (s : list B) (i : nat) : M B :=
  match s !! i with
  | Some x => mret x
  | None => raise IndexError
  end.

(** [Series.to_string()]: the labels, left-justified and padded to the
    longest label plus three, each followed by its formatted value; the
    lines are joined by newlines, without a final one. *)
Definition label_width (s : list (string * stat)) : nat :=
  foldr (fun kv m => Nat.max (String.length kv.1) m) 0 s + 3.

Definition to_string (s : list (string * stat)) : string :=
  match s with
  | [] => "Series([], )"
  | _ =>
      String.concat nl
        (imap (fun i kv => ljust (label_width s) kv.1 +:+ format_values (snd <$> s) i) s)
  end.

(** [str(x)] for the value interpolated into the mode line. *)
Definition str_mode (m : option scalar) : string :=
  match m with
  | None => "None"
  | Some (SNum x) => str_number x
  | Some (SStr t) => t
  end.

(** *** Plotting *)

(** [Series.hist(bins=bins, edgecolor=edgecolor)]: the non-missing
    values are drawn on the current figure, with a grid. *)
Definition hist (c : Column) (bins : nat) (edgecolor : string) : M unit :=
  if is_numeric c || hist_accepts_text
  then on_current (add_artist (Hist (col_values c) bins edgecolor));;
       on_current (add_artist Grid)
  else raise TypeError.

(** [df.boxplot(column=column)]: only the numeric columns of the frame
    are considered, and the column is looked up among them. *)
Definition boxplot (df : DataFrame) (column : string) : M unit :=
  gcf;;
  let numeric := filter (fun kc => is_numeric kc.2 = true) df in
  if decide (numeric = ∅)
  then raise (ValueError "boxplot method requires numerical columns, nothing to plot.")
  else
    match numeric !! column with
    | Some (NumCol s) =>
        on_current (add_artist (Box column (Series.dropna s)));;
        on_current (add_artist Grid)
    | _ => raise (KeyError column)
    end.

(** [plt.savefig(p)] *)
Definition plt_savefig (p : path) : M unit :=
  fig ← gcf;
  open_w p;;
  write p (png_signature +:+ png_encode fig).

(** *** The analysis *)

(** The conditional expression of line 69,
    [df[column].mode().iloc[0] if not df[column].mode().empty else None];
    the condition is evaluated first. *)
Definition column_mode (df : DataFrame) (column : string) : M (option scalar) :=
  c1 ← getitem df column;
  if negb (Series.empty (col_mode c1))
  then c2 ← getitem df column; m ← iloc (col_mode c2) 0; mret (Some m)
  else mret None.

Definition analyse_dataframe (df : DataFrame) (column : string) (output_dir : path) : M unit :=
  mkdir output_dir;;

  c ← getitem df column;
  let summary := describe c in
  mode ← column_mode df column;

  let summary_path := output_dir // "summary_statistics.txt" in
  open_w summary_path;;
  write summary_path ("Summary statistics" +:+ nl);;
  write summary_path (to_string summary);;
  write summary_path (nl +:+ nl);;
  write summary_path ("Mode: " +:+ str_mode mode +:+ nl);;

  plt_figure (8, 5);;
  c3 ← getitem df column;
  hist c3 20 "black";;
  plt_title ("Histogram of " +:+ column);;
  plt_xlabel column;;
  plt_ylabel "Frequency";;
  plt_tight_layout;;
  plt_savefig (output_dir // "histogram.png");;
  plt_close;;

  plt_figure (6, 5);;
  boxplot df column;;
  plt_title ("Box plot of " +:+ column);;
  plt_ylabel column;;
  plt_tight_layout;;
  plt_savefig (output_dir // "boxplot.png");;
  plt_close;;

  print ("Summary saved to " +:+ path_str summary_path);;
  print ("Histogram saved to " +:+ path_str (output_dir // "histogram.png"));;
  print ("Box plot saved to " +:+ path_str (output_dir // "boxplot.png")).
End program.

(** ** The script around the two functions

    [main] runs the mount step, the loader and the analysis in sequence.
    Besides the exceptions of the library calls, the script can end with
    [SystemExit] (raised by argparse) or with an [AttributeError] when a
    method is looked up on a value that does not have it. *)

Inductive failure :=
  | Raised (e : exn)
  | AttributeError (attr : string)
  | SystemExit (code : nat).

Definition Script (A : Type) : Type := world → (failure + A) * world.

#[export] Instance Script_ret : MRet Script := fun A a w => (inr a, w).
#[export] Instance Script_bind : MBind Script := fun A B k m w =>
  match m w with
  | (inr a, w') => k a w'
  | (inl e, w') => (inl e, w')
  end.

Definition abort {A} (e : failure) : Script A := fun w => (inl e, w).

(** A library call inside the script. *)
Definition lift {A} (m : M A) : Script A := fun w =>
  match m w with
  | (inr a, w') => (inr a, w')
  | (inl e, w') => (inl (Raised e), w')
  end.

(** [Path.exists()] *)
Definition path_exists (p : path) : M bool := fun w =>
  (inr (match node_at (fs w) p with Some _ => true | None => false end), w).

(** What [parse_args()] returns. *)
Record Namespace := {
  args_data_path : string;
  args_column : string;
  args_sheet : option string;
  args_output_dir : string;
  args_skip_mount : bool
}.

Section script.
Variable parse_csv : string → option DataFrame.
Variable parse_excel : string → option (list (string * DataFrame)).
Variable describe_object : list (option string) → list (string * stat).
Variable format_values : list stat → nat → string.
Variable str_number : Qc → string.
Variable png_encode : figure → string.
Variable hist_accepts_text : bool.
(** [Path(s)]: the components of a path written as a string. *)
Variable Path : string → path.
(** [google.colab.drive.mount], when the import of [google.colab]
    succeeds. *)
Variable colab_drive_mount : option (string → M unit).
(** argparse at work on the command line. *)
Variable parse_args : Script Namespace.
(** Lines 68 to 85 when [df[column]] is itself a DataFrame, which is
    what indexing the dict of sheets yields. *)
Variable frame_steps : DataFrame → string → path → Script unit.

Definition mount_google_drive (mount_point : string) : M unit :=
  match colab_drive_mount with
  | None => print "google.colab is not available; skipping drive.mount()."
  | Some drive_mount =>
      there ← path_exists (Path mount_point);
      if there : bool
      then print ("Mounting Google Drive at " +:+ mount_point +:+ "...");;
           drive_mount mount_point
      else print ("Mount point " +:+ mount_point +:+ " does not exist. " +:+
                  "Create the directory first or adjust the path.")
  end.

(** [analyse_dataframe(df, column, output_dir)] on whatever
    [load_dataframe] returned.  On the dict of sheets, [df[column]] is a
    dict lookup by sheet name, and [df.boxplot] on line 88 is an
    attribute the dict does not have. *)
Definition analyse_loaded (df : loaded) (column : string) (output_dir : path) : Script unit :=
  match df with
  | Frame df => lift (analyse_dataframe describe_object format_values str_number
                        png_encode hist_accepts_text df column output_dir)
  | Sheets d =>
      lift (mkdir output_dir);;
      match sheet_by_name column d with
      | None => lift (raise (KeyError column))
      | Some frame =>
          frame_steps frame column output_dir;;
          lift (plt_figure (6, 5));;
          abort (AttributeError "boxplot")
      end
  end.

Definition main : Script unit :=
  args ← parse_args;

  (if negb (args_skip_mount args)
   then lift (mount_google_drive "/content/drive")
   else mret ());;

  let data_path := Path (args_data_path args) in
  there ← lift (path_exists data_path);
  (if negb there
   then lift (print ("Warning: " +:+ path_str data_path +:+
                     " does not exist on this environment. " +:+
                     "Confirm the path when running in Google Colab."))
   else mret ());;

  df ← lift (load_dataframe parse_csv parse_excel data_path (args_sheet args));
  analyse_loaded df (args_column args) (Path (args_output_dir args)).
End script.

(** *** What a run may do to the file system *)

Definition artifact_paths (out : path) : list path :=
  [out // "summary_statistics.txt"; out // "histogram.png"; out // "boxplot.png"].

(** Between two file systems a path is left alone, or becomes a new
    directory on the way to [out], or is an artifact path that was no
    directory and now holds a file. *)
Definition touched_within (out : path) (f f' : gmap path node) (p : path) : Prop :=
  f' !! p = f !! p ∨
  (f !! p = None ∧ f' !! p = Some Dir ∧ p `suffix_of` out) ∨
  (p ∈ artifact_paths out ∧ f !! p ≠ Some Dir ∧ ∃ d, f' !! p = Some (File d)).

Definition confined (out : path) (w w' : world) : Prop :=
  ∀ p, touched_within out (fs w) (fs w') p.

(** A computation keeps a relation between the worlds before and after. *)
Definition keeps {A} (I : world → world → Prop) (m : M A) : Prop :=
  ∀ w r w', m w = (r, w') → I w w'.

Definition quiet (w w' : world) : Prop := stdout w' = stdout w.

(** Only pyplot's figures may differ. *)
Definition same_disk (w w' : world) : Prop :=
  fs w' = fs w ∧ stdout w' = stdout w.

(** A computation that prints nothing when it fails. *)
Definition quiet_on_failure {A} (m : M A) : Prop :=
  ∀ w e w', m w = (inl e, w') → quiet w w'.


(** ** Vocabulary of the statements *)

#[export] Instance scalar_eq_dec : EqDecision scalar.
Proof. solve_decision. Defined.

(** The cells of a column, in row order. *)
Definition cells (c : Column) : list (option scalar) :=
  match c with
  | NumCol s => option_map SNum <$> s
  | StrCol s => option_map SStr <$> s
  end.






(** The figures a run draws for a numeric column. *)
Definition histogram_figure (column : string) (c : Column) : figure :=
  {| figsize := (8, 5);
     artists := [Hist (col_values c) 20 "black"; Grid];
     title := "Histogram of " +:+ column;
     xlabel := column;
     ylabel := "Frequency";
     tight := true |}.

Definition boxplot_figure (column : string) (s : list (option Qc)) : figure :=
  {| figsize := (6, 5);
     artists := [Box column (Series.dropna s); Grid];
     title := "Box plot of " +:+ column;
     xlabel := "";
     ylabel := column;
     tight := true |}.

(** [lines] as a text: every line ended by a newline. *)
Definition unlines (lines : list string) : string :=
  foldr (fun l rest => l +:+ nl +:+ rest) "" lines.

(** A file system is well formed when every entry lies in a directory. *)
Definition wf_fs (f : gmap path node) : Prop :=
  ∀ p n, f !! p = Some n → node_at f (parent p) = Some Dir.

(** Sample inputs for the closed statements. *)
Definition empty_world : world := {| fs := ∅; figures := []; stdout := [] |}.

Definition col_3311 : Column :=
  NumCol [Some (Qc_of_Z 3); Some (Qc_of_Z 3); Some (Qc_of_Z 1); Some (Qc_of_Z 1)].

Definition col_missing : Column := NumCol [None; None].

Definition col_1_to_5 : list (option Qc) :=
  [Some (Qc_of_Z 1); Some (Qc_of_Z 2); Some (Qc_of_Z 3); Some (Qc_of_Z 4); Some (Qc_of_Z 5)].

(** A workbook with two sheets and the world holding it and a CSV file. *)
Definition sheet_first : DataFrame := {[ "a" := NumCol col_1_to_5 ]}.
Definition sheet_second : DataFrame := {[ "b" := col_3311 ]}.

Definition toy_parse_excel (d : string) : option (list (string * DataFrame)) :=
  if decide (d = "workbook")
  then Some [("first", sheet_first); ("second", sheet_second)]
  else None.

Definition toy_parse_csv (d : string) : option DataFrame :=
  if decide (d = "csv") then Some sheet_first else None.

Definition disk_world : world :=
  {| fs := {[ ["book.xlsx"] := File "workbook"; ["data.csv"] := File "csv" ]};
     figures := []; stdout := [] |}.

(** Stand-ins for the library parameters, and a run with them. *)
Definition toy_describe_object (s : list (option string)) : list (string * stat) := [].
Definition toy_format_values (vals : list stat) (i : nat) : string := "0".
Definition toy_str_number (x : Qc) : string := "0".
Definition toy_png_encode (fig : figure) : string := "".

Definition toy_analyse : DataFrame → string → path → M unit :=
  analyse_dataframe toy_describe_object toy_format_values toy_str_number
    toy_png_encode true.

Definition results_dir : path := ["results"; "drive"].

Definition results_fs : gmap path node :=
  <[results_dir := Dir]> (<[["drive"] := Dir]> ∅).

(** The world a run on column "a" of [sheet_first] ends in. *)
Definition toy_done : world :=
  (toy_analyse sheet_first "a" results_dir empty_world).2.

(** More sample inputs: a table with a column of text, worlds in which
    a file or a directory is in the way, and a command line. *)
Definition sheet_text : DataFrame := {[ "t" := StrCol [Some "x"; None; Some "x"] ]}.



Definition toy_Path (s : string) : path := [s].

Definition toy_parse_args (args : Namespace) : Script Namespace :=
  fun w => (inr args, w).

Definition toy_frame_steps (frame : DataFrame) (column : string) (out : path) : Script unit :=
  mret ().

Definition toy_main (args : Namespace) : Script unit :=
  main toy_parse_csv toy_parse_excel toy_describe_object toy_format_values
    toy_str_number toy_png_encode true toy_Path None (toy_parse_args args)
    toy_frame_steps.



Definition args_nowhere : Namespace :=
  {| args_data_path := "nowhere.csv"; args_column := "a"; args_sheet := None;
     args_output_dir := "analysis_results"; args_skip_mount := false |}.

(** ** Facts about [Series.mode] *)

Section series_facts.
Context {A : Type} `{EqDecision A}.
Context (R : relation A) `{!RelDecision R, !PartialOrder R, !Total R}.
Implicit Types (s : list (option A)) (t : list (A * nat)) (x k : A).

Import Series.

Lemma get_bump x k t :
  get k (bump x t) = if decide (k = x) then S (get k t) else get k t.
Proof.
  induction t as [|[k' c] t IH]; simpl.
  - repeat case_decide; congruence.
  - destruct (decide (k' = x)) as [->|Hne]; simpl.
    + repeat case_decide; congruence.
    + rewrite IH. repeat case_decide; congruence.
Qed.

Lemma keys_bump x t : ∀ k, k ∈ (bump x t).*1 ↔ k = x ∨ k ∈ t.*1.
Proof.
  induction t as [|[k' c] t IH]; intros k; simpl.
  - rewrite !elem_of_cons, !elem_of_nil. tauto.
  - case_decide; subst; simpl; rewrite !elem_of_cons; [tauto|].
    rewrite IH. tauto.
Qed.

Lemma good_bump x t : good t → good (bump x t).
Proof.
  intros [Hnd Hpos]. split.
  - induction t as [|[k' c] t IH]; simpl.
    + apply NoDup_singleton.
    + simpl in Hnd. apply NoDup_cons in Hnd as [Hk Hnd].
      apply Forall_cons in Hpos as [_ Hpos].
      case_decide; subst; simpl; apply NoDup_cons; split; auto.
      rewrite keys_bump. intros [->|?]; [congruence|done].
  - induction Hpos as [|[k' c] t Hc Hpos IH]; simpl.
    + repeat constructor.
    + simpl in Hnd. apply NoDup_cons in Hnd as [Hk Hnd].
      case_decide; constructor; simpl in *; auto with lia.
Qed.

Lemma elem_of_good t k c : good t → (k, c) ∈ t ↔ get k t = c ∧ 0 < c.
Proof.
  intros [Hnd Hpos]. induction t as [|[k' c'] t IH]; simpl.
  - split; [by intros ?%elem_of_nil | lia].
  - simpl in Hnd. apply NoDup_cons in Hnd as [Hk Hnd].
    apply Forall_cons in Hpos as [Hc Hpos]. simpl in Hc.
    rewrite elem_of_cons, IH by done. case_decide as Hkk.
    + subst k'. split.
      * intros [Heq|[Hg Hp]]; [by simplify_eq|].
        exfalso. apply Hk. apply list_elem_of_fmap.
        exists (k, c). split; [done|]. by apply IH.
      * intros [-> ?]. by left.
    + split; [|tauto]. intros [Heq|?]; [by simplify_eq|tauto].
Qed.

Lemma occ_cons x cell s :
  occ x (cell :: s) = if decide (cell = Some x) then S (occ x s) else occ x s.
Proof. unfold occ. rewrite filter_cons. by case_decide. Qed.


Lemma occ_pos x s : 0 < occ x s ↔ Some x ∈ s.
Proof.
  induction s as [|cell s IH]; rewrite ?occ_cons.
  - split; [unfold occ; simpl; lia | by intros ?%elem_of_nil].
  - rewrite elem_of_cons. case_decide; subst; [split; auto with lia|].
    rewrite IH. split; [tauto|]. intros [?|?]; congruence.
Qed.

Lemma foldl_counts s : ∀ t,
  good t →
  good (foldl (fun t cell => match cell with Some x => bump x t | None => t end) t s) ∧
  ∀ k, get k (foldl (fun t cell => match cell with Some x => bump x t | None => t end) t s)
       = get k t + occ k s.
Proof.
  induction s as [|[y|] s IH]; intros t Ht; simpl.
  - split; [done|]. intros k. unfold occ. simpl. lia.
  - destruct (IH (bump y t) (good_bump y t Ht)) as [Hg Hget].
    split; [done|]. intros k. rewrite Hget, get_bump, occ_cons.
    repeat case_decide; simplify_eq; lia.
  - destruct (IH t Ht) as [Hg Hget]. split; [done|].
    intros k. rewrite Hget, occ_cons. case_decide; [done|lia].
Qed.

Lemma good_nil : good (A:=A) [].
Proof. split; [apply NoDup_nil_2 | constructor]. Qed.

Lemma elem_of_value_count s k c :
  (k, c) ∈ value_count s ↔ occ k s = c ∧ 0 < c.
Proof.
  destruct (foldl_counts s [] good_nil) as [Hg Hget].
  unfold value_count. rewrite (elem_of_good _ _ _ Hg), Hget. simpl. done.
Qed.

Lemma max_count_ge t kc : kc ∈ t → kc.2 ≤ max_count t.
Proof.
  induction t as [|kc' t IH]; [by intros ?%elem_of_nil|].
  rewrite elem_of_cons. simpl. intros [->|Hin]; [lia|].
  specialize (IH Hin). lia.
Qed.

Lemma max_count_attained t : t ≠ [] → ∃ kc, kc ∈ t ∧ kc.2 = max_count t.
Proof.
  induction t as [|kc t IH]; [done|]. intros _. simpl.
  destruct (decide (max_count t ≤ kc.2)) as [Hle|Hgt].
  - exists kc. split; [by left | lia].
  - destruct t as [|kc' t]; [simpl in Hgt; lia|].
    destruct IH as (kc2 & Hin & Heq); [done|].
    exists kc2. split; [by right | lia].
Qed.

Lemma occ_le_max s w : occ w s ≤ max_count (value_count s).
Proof.
  destruct (decide (occ w s = 0)) as [->|Hne]; [lia|].
  apply (max_count_ge _ (w, occ w s)), elem_of_value_count. lia.
Qed.

(** The modes are the values that occur, and no less often than any
    other value. *)
Lemma elem_of_mode s v :
  v ∈ mode R s ↔ 0 < occ v s ∧ ∀ w, occ w s ≤ occ v s.
Proof.
  unfold mode. rewrite merge_sort_Permutation, list_elem_of_fmap. split.
  - intros ([k c] & -> & [Hc Hin]%list_elem_of_filter). simpl in *.
    apply elem_of_value_count in Hin as [Hocc Hpos]. subst c.
    split; [lia|]. intros w. rewrite Hocc. apply occ_le_max.
  - intros [Hpos Hmax]. exists (v, occ v s). split; [done|].
    apply list_elem_of_filter. split; [|by apply elem_of_value_count].
    simpl. apply Nat.le_antisymm; [apply occ_le_max|].
    destruct (max_count_attained (value_count s)) as ([k c] & Hin & Heq).
    { intros Hnil. assert (Hv : (v, occ v s) ∈ value_count s)
        by by apply elem_of_value_count.
      rewrite Hnil in Hv. by apply elem_of_nil in Hv. }
    apply elem_of_value_count in Hin as [Hocc _]. simpl in Heq.
    rewrite <- Heq, <- Hocc. apply Hmax.
Qed.



(** There is no mode exactly when every cell is missing. *)
Lemma mode_nil s : mode R s = [] ↔ Forall (eq None) s.
Proof.
  split.
  - intros Hnil. apply Forall_forall. intros [x|] Hx; [|done]. exfalso.
    apply occ_pos in Hx.
    destruct (max_count_attained (value_count s)) as ([k c] & Hin & Heq).
    { intros Ht. assert (Hv : (x, occ x s) ∈ value_count s)
        by by apply elem_of_value_count.
      rewrite Ht in Hv. by apply elem_of_nil in Hv. }
    pose proof Hin as [Hocc Hc]%elem_of_value_count. simpl in Heq.
    assert (Hk : k ∈ mode R s).
    { apply elem_of_mode. split; [lia|]. intros w.
      rewrite Hocc, Heq. apply occ_le_max. }
    rewrite Hnil in Hk. by apply elem_of_nil in Hk.
  - intros Hall. destruct (mode R s) as [|h l] eqn:Hl; [done|]. exfalso.
    assert (Hh : h ∈ mode R s) by (rewrite Hl; by left).
    apply elem_of_mode in Hh as [Hpos _]. apply occ_pos in Hpos.
    rewrite Forall_forall in Hall. by specialize (Hall _ Hpos).
Qed.

End series_facts.

(** ** Facts about the mode of a column *)







Lemma list_fmap_nil_iff {A B} (f : A → B) (l : list A) : f <$> l = [] ↔ l = [].
Proof. split; [apply fmap_nil_inv | by intros ->]. Qed.

Lemma col_mode_nil c : col_mode c = [] ↔ Forall (eq None) (cells c).
Proof.
  destruct c as [s|s]; simpl; rewrite list_fmap_nil_iff.
  - rewrite (mode_nil Qcle), Forall_fmap. apply Forall_iff. by intros [x|].
  - rewrite (mode_nil String.le), Forall_fmap. apply Forall_iff. by intros [x|].
Qed.


(** Line 69 never raises on a column of the frame: it yields the first
    mode, or [None] when there is none. *)
Lemma column_mode_run df column c w :
  df !! column = Some c →
  column_mode df column w = (inr (head (col_mode c)), w).
Proof.
  intros Hc. unfold column_mode, getitem, iloc, mbind, M_bind, mret, M_ret.
  rewrite Hc. destruct (col_mode c) as [|v l]; reflexivity.
Qed.




(** C4: on a column that is empty or holds only missing cells the mode
    is [None], and computing it raises nothing. *)
Theorem mode_of_missing_column df column c w :
  df !! column = Some c →
  Forall (eq None) (cells c) →
  column_mode df column w = (inr None, w).
Proof.
  intros Hc Hall. rewrite (column_mode_run _ _ _ _ Hc).
  by apply col_mode_nil in Hall as ->.
Qed.

Lemma mode_of_missing_column_witness :
  column_mode {[ "x" := col_missing ]} "x" empty_world = (inr None, empty_world).
Proof.
  apply (mode_of_missing_column {[ "x" := col_missing ]} "x" col_missing empty_world).
  - reflexivity.
  - repeat constructor.
Defined.

(** ** Facts about [Series.describe] *)











Section describe_facts.
Variable describe_object : list (option string) → list (string * stat).


(** C8: for the rows 1, 2, 3, 4, 5 the summary has mean 3, min 1,
    max 5 and count 5. *)
Theorem describe_one_to_five :
  item "mean" (describe describe_object (NumCol col_1_to_5)) = Some (Num (Qc_of_Z 3)) ∧
  item "min" (describe describe_object (NumCol col_1_to_5)) = Some (Num (Qc_of_Z 1)) ∧
  item "max" (describe describe_object (NumCol col_1_to_5)) = Some (Num (Qc_of_Z 5)) ∧
  item "count" (describe describe_object (NumCol col_1_to_5)) = Some (Num (Qc_of_Z 5)).
Proof.
  split_and!; vm_compute; do 2 f_equal; apply Qc_is_canon; reflexivity.
Qed.
End describe_facts.

(** ** Facts about [load_dataframe] *)

Section loader_facts.
Variable parse_csv : string → option DataFrame.
Variable parse_excel : string → option (list (string * DataFrame)).

Abbreviation load_dataframe := (load_dataframe parse_csv parse_excel).

(** With a sheet name, a spreadsheet path yields that sheet alone. *)
Lemma load_excel_named_sheet data_path n d wb df w :
  lower (suffix data_path) ∈ [".xls"; ".xlsx"] →
  node_at (fs w) data_path = Some (File d) →
  parse_excel d = Some wb →
  sheet_by_name n wb = Some df →
  load_dataframe data_path (Some n) w = (inr (Frame df), w).
Proof.
  intros Hsuf Hfile Hwb Hsheet. unfold load_dataframe.
  rewrite bool_decide_true by done.
  unfold read_excel, read_bytes, mbind, M_bind. by rewrite Hfile, Hwb, Hsheet.
Qed.

(** C2, what the code does: without a sheet name, a spreadsheet path
    yields the dict of all the sheets of the workbook, not a single
    table. *)
Theorem load_excel_without_sheet data_path d wb w :
  lower (suffix data_path) ∈ [".xls"; ".xlsx"] →
  node_at (fs w) data_path = Some (File d) →
  parse_excel d = Some wb →
  load_dataframe data_path None w = (inr (Sheets wb), w).
Proof.
  intros Hsuf Hfile Hwb. unfold load_dataframe.
  rewrite bool_decide_true by done.
  unfold read_excel, read_bytes, mbind, M_bind. by rewrite Hfile, Hwb.
Qed.

(** C10: on a path without a spreadsheet suffix the sheet argument is
    not looked at. *)
Theorem load_csv_ignores_sheet data_path sheet1 sheet2 w :
  lower (suffix data_path) ∉ [".xls"; ".xlsx"] →
  load_dataframe data_path sheet1 w = load_dataframe data_path sheet2 w.
Proof.
  intros Hsuf. unfold load_dataframe. by rewrite bool_decide_false by done.
Qed.
End loader_facts.

Lemma load_excel_without_sheet_witness :
  load_dataframe toy_parse_csv toy_parse_excel ["book.xlsx"] None disk_world
  = (inr (Sheets [("first", sheet_first); ("second", sheet_second)]), disk_world).
Proof.
  apply (load_excel_without_sheet toy_parse_csv toy_parse_excel
           ["book.xlsx"] "workbook" _ disk_world).
  - vm_compute. apply list_elem_of_In. right. left. reflexivity.
  - reflexivity.
  - reflexivity.
Defined.

Lemma load_csv_ignores_sheet_witness :
  load_dataframe toy_parse_csv toy_parse_excel ["data.csv"] None disk_world
  = load_dataframe toy_parse_csv toy_parse_excel ["data.csv"] (Some "second") disk_world.
Proof.
  apply (load_csv_ignores_sheet toy_parse_csv toy_parse_excel
           ["data.csv"] None (Some "second") disk_world).
  vm_compute. intros Hin. apply list_elem_of_In in Hin.
  destruct Hin as [Heq|[Heq|[]]]; discriminate Heq.
Defined.

(** ** Facts about the file system *)

Lemma os_mkdir_inr p f f' :
  os_mkdir p f = inr f' →
  f' = <[p := Dir]> f ∧ node_at f p = None ∧ node_at f (parent p) = Some Dir.
Proof.
  unfold os_mkdir. destruct (node_at f p); [done|].
  destruct (node_at f (parent p)) as [[|d]|]; [|done..].
  by intros [= <-].
Qed.

Lemma node_at_insert f p p' n :
  p ≠ [] →
  node_at (<[p := n]> f) p' = if decide (p = p') then Some n else node_at f p'.
Proof.
  intros Hp. unfold node_at. destruct p' as [|c p'].
  - by rewrite decide_False.
  - apply lookup_insert.
Qed.

Lemma mkdir_exist_ok_inr p f f1 :
  mkdir_exist_ok p f = inr f1 →
  node_at f1 p = Some Dir ∧
  (f1 = f ∨ (f1 = <[p := Dir]> f ∧ node_at f p = None)).
Proof.
  unfold mkdir_exist_ok. destruct (os_mkdir p f) as [e|f'] eqn:Hos.
  - assert (Hdir : (if is_dir f p then inr f else inl e) = inr f1 →
                   node_at f1 p = Some Dir ∧ (f1 = f ∨ (f1 = <[p := Dir]> f ∧ node_at f p = None))).
    { unfold is_dir. destruct (node_at f p) as [[|d]|] eqn:Hn; try done.
      intros [= <-]. auto. }
    destruct e; try done.
  - intros [= <-]. apply os_mkdir_inr in Hos as (-> & Hnone & Hpar).
    split; [|auto]. destruct p as [|c p]; [done|].
    simpl. apply lookup_insert_eq.
Qed.

(** What a successful [mkdir(parents=True, exist_ok=True)] does: the
    path is a directory afterwards, and the only entries that change are
    directories created at the path or above it. *)
Lemma mkdir_parents_inr p : ∀ f f1,
  mkdir_parents p f = inr f1 →
  node_at f1 p = Some Dir ∧
  ∀ p', f1 !! p' = f !! p' ∨
        (f !! p' = None ∧ f1 !! p' = Some Dir ∧ p' `suffix_of` p).
Proof.
  induction p as [|c up IH]; intros f f1; simpl.
  - intros [= <-]. auto.
  - destruct (os_mkdir (c :: up) f) as [e|f'] eqn:Hos.
    + assert (Hdir : (if is_dir f (c :: up) then inr f else inl e) = inr f1 →
                     node_at f1 (c :: up) = Some Dir ∧
                     ∀ p', f1 !! p' = f !! p' ∨
                           (f !! p' = None ∧ f1 !! p' = Some Dir ∧ p' `suffix_of` c :: up)).
      { unfold is_dir. destruct (node_at f (c :: up)) as [[|d]|] eqn:Hn; try done.
        intros [= <-]. auto. }
      destruct e; try done.
      destruct (mkdir_parents up f) as [e|f2] eqn:Hup; [done|].
      intros Hex. apply IH in Hup as [Hupdir Hframe].
      apply mkdir_exist_ok_inr in Hex as [Hpdir [->|[-> Hnone]]].
      * split; [done|]. intros p'. destruct (Hframe p') as [?|(?&?&?)]; [by left|].
        right. split_and!; [done..|]. by apply suffix_cons_r.
      * split; [done|]. intros p'.
        destruct (decide (c :: up = p')) as [<-|Hne].
        -- rewrite lookup_insert_eq.
           destruct (Hframe (c :: up)) as [Heq|(Hn & Hd & _)].
           ++ simpl in Hnone. rewrite Hnone in Heq. right. by split_and!.
           ++ simpl in Hnone. congruence.
        -- rewrite lookup_insert_ne by done.
           destruct (Hframe p') as [?|(?&?&?)]; [by left|].
           right. split_and!; [done..|]. by apply suffix_cons_r.
    + intros [= <-]. apply os_mkdir_inr in Hos as (-> & Hnone & Hpar).
      split; [apply lookup_insert_eq|]. intros p'.
      destruct (decide (c :: up = p')) as [<-|Hne].
      * rewrite lookup_insert_eq. right. by split_and!.
      * rewrite lookup_insert_ne by done. by left.
Qed.

Lemma wf_fs_insert f p n :
  wf_fs f → node_at f (parent p) = Some Dir → f !! p = None → p ≠ [] →
  wf_fs (<[p := n]> f).
Proof.
  intros Hwf Hpar Hnone Hp p' n'. rewrite lookup_insert.
  case_decide as Heq.
  - subst p'. intros _. rewrite node_at_insert by done.
    case_decide as Heq'; [|done].
    destruct p as [|c p]; [done|]. simpl in Heq'.
    exfalso. apply (f_equal length) in Heq'. simpl in Heq'. lia.
  - intros Hp'. apply Hwf in Hp'. rewrite node_at_insert by done.
    case_decide as Heq'; [|done]. subst p.
    destruct (parent p') as [|c' q]; [done|]. simpl in Hp'. congruence.
Qed.

Lemma mkdir_parents_wf p : ∀ f f1,
  wf_fs f → mkdir_parents p f = inr f1 → wf_fs f1.
Proof.
  induction p as [|c up IH]; intros f f1 Hwf; simpl.
  - by intros [= <-].
  - destruct (os_mkdir (c :: up) f) as [e|f'] eqn:Hos.
    + assert (Hdir : (if is_dir f (c :: up) then inr f else inl e) = inr f1 → wf_fs f1).
      { destruct (is_dir f (c :: up)); [by intros [= <-] | done]. }
      destruct e; try done.
      destruct (mkdir_parents up f) as [e|f2] eqn:Hup; [done|].
      intros Hex. pose proof (IH _ _ Hwf Hup) as Hwf2.
      apply mkdir_parents_inr in Hup as [Hupdir _].
      apply mkdir_exist_ok_inr in Hex as [_ [->|[-> Hnone]]]; [done|].
      by apply wf_fs_insert.
    + intros [= <-]. apply os_mkdir_inr in Hos as (-> & Hnone & Hpar).
      by apply wf_fs_insert.
Qed.

(** In a well-formed file system everything above a directory is a
    directory. *)
Lemma wf_fs_ancestors f p p' :
  wf_fs f → node_at f p = Some Dir → p' `suffix_of` p → node_at f p' = Some Dir.
Proof.
  intros Hwf Hdir [k ->]. induction k as [|c k IH]; [done|].
  apply IH. simpl in Hdir. by apply Hwf in Hdir.
Qed.

(** ** Facts about strings *)

Lemma string_app_assoc (a b c : string) : (a +:+ b) +:+ c = a +:+ (b +:+ c).
Proof.
  induction a as [|x a IH]; [done|].
  change (String x ((a +:+ b) +:+ c) = String x (a +:+ (b +:+ c))).
  by rewrite IH.
Qed.

(** ** Facts about [analyse_dataframe] *)

Lemma bind_inr {A B} (m : M A) (k : A → M B) w a w' :
  m w = (inr a, w') → (m ≫= k) w = k a w'.
Proof. unfold mbind, M_bind. by intros ->. Qed.

Lemma bind_inl {A B} (m : M A) (k : A → M B) w e w' :
  m w = (inl e, w') → (m ≫= k) w = (inl e, w').
Proof. unfold mbind, M_bind. by intros ->. Qed.

Section analysis_facts.
Variable describe_object : list (option string) → list (string * stat).
Variable format_values : list stat → nat → string.
Variable str_number : Qc → string.
Variable png_encode : figure → string.
Variable hist_accepts_text : bool.

Abbreviation analyse_dataframe :=
  (analyse_dataframe describe_object format_values str_number png_encode hist_accepts_text).
Abbreviation describe := (describe describe_object).
Abbreviation to_string := (to_string format_values).
Abbreviation str_mode := (str_mode str_number).

Abbreviation summary_written c :=
  (((("Summary statistics" +:+ nl) +:+ to_string (describe c)) +:+ (nl +:+ nl))
   +:+ ("Mode: " +:+ str_mode (head (col_mode c)) +:+ nl)).

Lemma node_at_insert_ne f p p' n :
  p ≠ [] → p ≠ p' → node_at (<[p := n]> f) p' = node_at f p'.
Proof. intros Hp Hne. rewrite node_at_insert by done. by rewrite decide_False. Qed.

Lemma joinpath_ne (p : path) c : p // c ≠ p.
Proof. intros Heq. apply (f_equal length) in Heq. simpl in Heq. lia. Qed.

Lemma is_dir_insert_ne f p p' n :
  p ≠ [] → p ≠ p' → is_dir (<[p := n]> f) p' = is_dir f p'.
Proof. intros Hp Hne. unfold is_dir. by rewrite node_at_insert_ne. Qed.

(** *** The primitives, step by step *)

Lemma mkdir_run p f f1 figs o :
  mkdir_parents p f = inr f1 →
  mkdir p {| fs := f; figures := figs; stdout := o |}
  = (inr (), {| fs := f1; figures := figs; stdout := o |}).
Proof. intros Hmk. unfold mkdir. simpl. by rewrite Hmk. Qed.

Lemma mkdir_fail p f e figs o :
  mkdir_parents p f = inl e →
  mkdir p {| fs := f; figures := figs; stdout := o |}
  = (inl e, {| fs := f; figures := figs; stdout := o |}).
Proof. intros Hmk. unfold mkdir. simpl. by rewrite Hmk. Qed.

Lemma getitem_run df column c w :
  df !! column = Some c → getitem df column w = (inr c, w).
Proof. intros Hc. unfold getitem. by rewrite Hc. Qed.

Lemma getitem_fail df column w :
  df !! column = None → getitem df column w = (inl (KeyError column), w).
Proof. intros Hc. unfold getitem. by rewrite Hc. Qed.

Lemma open_w_run p f figs o :
  is_dir f p = false →
  node_at f (parent p) = Some Dir →
  open_w p {| fs := f; figures := figs; stdout := o |}
  = (inr (), {| fs := <[p := File ""]> f; figures := figs; stdout := o |}).
Proof.
  unfold open_w, is_dir. simpl. intros Hp ->.
  by destruct (node_at f p) as [[|d]|].
Qed.

Lemma open_w_fail p f figs o :
  is_dir f p = true →
  open_w p {| fs := f; figures := figs; stdout := o |}
  = (inl (IsADirectoryError p), {| fs := f; figures := figs; stdout := o |}).
Proof.
  unfold open_w, is_dir. simpl. by destruct (node_at f p) as [[|d]|].
Qed.

Lemma write_run p s d f figs o :
  write p s {| fs := <[p := File d]> f; figures := figs; stdout := o |}
  = (inr (), {| fs := <[p := File (d +:+ s)]> f; figures := figs; stdout := o |}).
Proof. unfold write, set_fs. simpl. by rewrite alter_insert_eq. Qed.

Lemma on_current_run g f fig figs o :
  on_current g {| fs := f; figures := fig :: figs; stdout := o |}
  = (inr (), {| fs := f; figures := g fig :: figs; stdout := o |}).
Proof. reflexivity. Qed.

Lemma hist_numeric_run s bins edgecolor f fig figs o :
  hist hist_accepts_text (NumCol s) bins edgecolor
    {| fs := f; figures := fig :: figs; stdout := o |}
  = (inr (), {| fs := f;
                figures := add_artist Grid
                             (add_artist (Hist (col_values (NumCol s)) bins edgecolor) fig)
                           :: figs;
                stdout := o |}).
Proof. reflexivity. Qed.

Lemma plt_savefig_run p f fig figs o :
  is_dir f p = false →
  node_at f (parent p) = Some Dir →
  plt_savefig png_encode p {| fs := f; figures := fig :: figs; stdout := o |}
  = (inr (), {| fs := <[p := File (png_signature +:+ png_encode fig)]> f;
                figures := fig :: figs; stdout := o |}).
Proof.
  intros Hp Hpar. unfold plt_savefig.
  erewrite bind_inr; [|reflexivity].
  erewrite bind_inr; [|by apply open_w_run].
  by rewrite write_run.
Qed.

Lemma plt_savefig_fail p f fig figs o :
  is_dir f p = true →
  plt_savefig png_encode p {| fs := f; figures := fig :: figs; stdout := o |}
  = (inl (IsADirectoryError p), {| fs := f; figures := fig :: figs; stdout := o |}).
Proof.
  intros Hp. unfold plt_savefig.
  erewrite bind_inr; [|reflexivity].
  erewrite bind_inl; [done|by apply open_w_fail].
Qed.

Lemma boxplot_numeric_run df column s f fig figs o :
  df !! column = Some (NumCol s) →
  boxplot df column {| fs := f; figures := fig :: figs; stdout := o |}
  = (inr (), {| fs := f;
                figures := add_artist Grid
                             (add_artist (Box column (Series.dropna s)) fig) :: figs;
                stdout := o |}).
Proof.
  intros Hc. unfold boxplot.
  assert (Hf : filter (fun kc : string * Column => is_numeric kc.2 = true) df !! column
               = Some (NumCol s)) by by apply map_lookup_filter_Some.
  erewrite bind_inr; [|reflexivity].
  rewrite decide_False; [|intros Hnil; by rewrite Hnil in Hf].
  by rewrite Hf.
Qed.

(** A column of strings never gets through [boxplot]. *)
Lemma boxplot_text_fail df column s w :
  df !! column = Some (StrCol s) →
  ∃ e w', boxplot df column w = (inl e, w').
Proof.
  intros Hc. unfold boxplot, mbind, M_bind.
  destruct (gcf w) as [[e|fig] w1]; [by eauto|].
  case_decide; [by eexists _, _|].
  destruct (filter _ df !! column) as [[s'|s']|] eqn:Hf; try by eexists _, _.
  apply map_lookup_filter_Some in Hf as [Hc' _]. congruence.
Qed.
(** *** A whole run on a numeric column *)

Lemma analyse_numeric_eq df column out f figs o s f1 :
  df !! column = Some (NumCol s) →
  mkdir_parents out f = inr f1 →
  let p1 := out // "summary_statistics.txt" in
  let p2 := out // "histogram.png" in
  let p3 := out // "boxplot.png" in
  let f2 := <[p1 := File (summary_written (NumCol s))]> f1 in
  let f3 := <[p2 := File (png_signature +:+
                          png_encode (histogram_figure column (NumCol s)))]> f2 in
  let f4 := <[p3 := File (png_signature +:+
                          png_encode (boxplot_figure column s))]> f3 in
  analyse_dataframe df column out {| fs := f; figures := figs; stdout := o |}
  = if is_dir f1 p1
    then (inl (IsADirectoryError p1), {| fs := f1; figures := figs; stdout := o |})
    else if is_dir f1 p2
    then (inl (IsADirectoryError p2),
          {| fs := f2; figures := histogram_figure column (NumCol s) :: figs;
             stdout := o |})
    else if is_dir f1 p3
    then (inl (IsADirectoryError p3),
          {| fs := f3; figures := boxplot_figure column s :: figs; stdout := o |})
    else (inr (),
          {| fs := f4; figures := figs;
             stdout := o ++ ["Summary saved to " +:+ path_str p1] ++
                       ["Histogram saved to " +:+ path_str p2] ++
                       ["Box plot saved to " +:+ path_str p3] |}).
Proof.
  intros Hc Hmk p1 p2 p3 f2 f3 f4.
  pose proof (mkdir_parents_inr _ _ _ Hmk) as [Hout _].
  unfold analyse_dataframe.
  erewrite bind_inr; [|by apply mkdir_run].
  erewrite bind_inr; [|by apply getitem_run].
  erewrite bind_inr; [|by apply column_mode_run].
  fold p1 p2 p3.
  destruct (is_dir f1 p1) eqn:Hp1.
  { erewrite bind_inl; [done|by apply open_w_fail]. }
  erewrite bind_inr; [|by apply open_w_run].
  do 4 (erewrite bind_inr; [|apply write_run]).
  erewrite bind_inr; [|reflexivity].
  erewrite bind_inr; [|by apply getitem_run].
  erewrite bind_inr; [|apply hist_numeric_run].
  do 4 (erewrite bind_inr; [|apply on_current_run]).
  assert (Hp12 : p1 ≠ p2) by (by intros [=]).
  assert (Hp13 : p1 ≠ p3) by (by intros [=]).
  assert (Hp23 : p2 ≠ p3) by (by intros [=]).
  assert (Hout2 : node_at f2 out = Some Dir).
  { unfold f2. rewrite node_at_insert_ne; [done..|apply joinpath_ne]. }
  assert (Hout3 : node_at f3 out = Some Dir).
  { unfold f3. rewrite node_at_insert_ne; [done..|apply joinpath_ne]. }
  assert (Hd2 : is_dir f2 p2 = is_dir f1 p2).
  { unfold f2. by rewrite is_dir_insert_ne. }
  assert (Hd3 : is_dir f3 p3 = is_dir f1 p3).
  { unfold f3, f2. by rewrite !is_dir_insert_ne. }
  destruct (is_dir f1 p2) eqn:Hp2.
  { erewrite bind_inl; [done|]. by apply plt_savefig_fail. }
  erewrite bind_inr; [|by apply plt_savefig_run].
  erewrite bind_inr; [|reflexivity].
  erewrite bind_inr; [|reflexivity].
  erewrite bind_inr; [|by apply boxplot_numeric_run].
  do 3 (erewrite bind_inr; [|apply on_current_run]).
  destruct (is_dir f1 p3) eqn:Hp3.
  { erewrite bind_inl; [done|]. by apply plt_savefig_fail. }
  erewrite bind_inr; [|by apply plt_savefig_run].
  erewrite bind_inr; [|reflexivity].
  erewrite bind_inr; [|reflexivity].
  erewrite bind_inr; [|reflexivity].
  unfold print. simpl. by rewrite <- !app_assoc.
Qed.
(** *** Runs that fail *)

Lemma fails_bind {A B} (m : M A) (k : A → M B) w :
  (∀ a w1, ∃ e w', k a w1 = (inl e, w')) →
  ∃ e w', (m ≫= k) w = (inl e, w').
Proof.
  intros Hk. unfold mbind, M_bind. destruct (m w) as [[e|a] w1]; [by eauto|].
  apply Hk.
Qed.

Lemma fails_here {A B} (m : M A) (k : A → M B) w :
  (∃ e w', m w = (inl e, w')) → ∃ e w', (m ≫= k) w = (inl e, w').
Proof. intros (e & w' & Hm). exists e, w'. by apply bind_inl. Qed.

(** On a column of strings the run fails at the box plot at the latest. *)
Lemma analyse_text_fail df column out s w :
  df !! column = Some (StrCol s) →
  ∃ e w', analyse_dataframe df column out w = (inl e, w').
Proof.
  intros Hc. unfold analyse_dataframe.
  repeat lazymatch goal with
         | |- ∃ e w', (boxplot _ _ ≫= _) _ = _ => fail
         | |- _ => apply fails_bind; intros ? ?
         end.
  by eapply fails_here, boxplot_text_fail.
Qed.

(** On an absent column the run stops at the first [df[column]], right
    after the directory has been made. *)
Lemma analyse_absent_eq df column out f figs o :
  df !! column = None →
  analyse_dataframe df column out {| fs := f; figures := figs; stdout := o |}
  = match mkdir_parents out f with
    | inl e => (inl e, {| fs := f; figures := figs; stdout := o |})
    | inr f1 => (inl (KeyError column), {| fs := f1; figures := figs; stdout := o |})
    end.
Proof.
  intros Hc. unfold analyse_dataframe.
  destruct (mkdir_parents out f) as [e|f1] eqn:Hmk.
  - erewrite bind_inl; [done|by apply mkdir_fail].
  - erewrite bind_inr; [|by apply mkdir_run].
    erewrite bind_inl; [done|by apply getitem_fail].
Qed.

(** *** Runs that succeed *)

Lemma analyse_success_inv df column out w w' :
  analyse_dataframe df column out w = (inr (), w') →
  let p1 := out // "summary_statistics.txt" in
  let p2 := out // "histogram.png" in
  let p3 := out // "boxplot.png" in
  ∃ s f1,
    df !! column = Some (NumCol s) ∧
    mkdir_parents out (fs w) = inr f1 ∧
    is_dir f1 p1 = false ∧ is_dir f1 p2 = false ∧ is_dir f1 p3 = false ∧
    w' = {| fs := <[p3 := File (png_signature +:+ png_encode (boxplot_figure column s))]>
                 (<[p2 := File (png_signature +:+
                                png_encode (histogram_figure column (NumCol s)))]>
                  (<[p1 := File (summary_written (NumCol s))]> f1));
            figures := figures w;
            stdout := stdout w ++ ["Summary saved to " +:+ path_str p1] ++
                      ["Histogram saved to " +:+ path_str p2] ++
                      ["Box plot saved to " +:+ path_str p3] |}.
Proof.
  destruct w as [f figs o]. intros Hrun p1 p2 p3.
  destruct (df !! column) as [[s|s]|] eqn:Hc.
  - destruct (mkdir_parents out f) as [e|f1] eqn:Hmk.
    { unfold analyse_dataframe in Hrun.
      erewrite bind_inl in Hrun; [done|by apply mkdir_fail]. }
    rewrite (analyse_numeric_eq _ _ _ _ _ _ _ _ Hc Hmk) in Hrun.
    fold p1 p2 p3 in Hrun. exists s, f1.
    destruct (is_dir f1 p1); [done|].
    destruct (is_dir f1 p2); [done|].
    destruct (is_dir f1 p3); [done|].
    by injection Hrun as <-.
  - destruct (analyse_text_fail df column out s {| fs := f; figures := figs; stdout := o |} Hc)
      as (e & w1 & Hfail). congruence.
  - rewrite (analyse_absent_eq _ _ _ _ _ _ Hc) in Hrun.
    by destruct (mkdir_parents out f).
Qed.
(** *** The claims about [analyse_dataframe] *)

Lemma mkdir_parents_files out f f1 :
  mkdir_parents out f = inr f1 →
  ∀ p d, f1 !! p = Some (File d) ↔ f !! p = Some (File d).
Proof.
  intros Hmk p d. apply mkdir_parents_inr in Hmk as [_ Hframe].
  destruct (Hframe p) as [->|(Hnone & Hdir & _)]; [done|].
  rewrite Hnone, Hdir. split; intros [=].
Qed.

Lemma mkdir_parents_below out f f1 c :
  mkdir_parents out f = inr f1 → f1 !! (out // c) = f !! (out // c).
Proof.
  intros Hmk. apply mkdir_parents_inr in Hmk as [_ Hframe].
  destruct (Hframe (out // c)) as [->|(_ & _ & Hsuf)]; [done|].
  apply suffix_length in Hsuf. simpl in Hsuf. lia.
Qed.

(** C3: when the column is not in the table (and the output directory
    can be made), the run fails with the [KeyError] of the column, and
    no file is created or changed; in particular the three artifact
    paths are left as they were. *)
Theorem absent_column_no_artifacts df column out w f1 :
  column ∉ dom df →
  mkdir_parents out (fs w) = inr f1 →
  ∃ w', analyse_dataframe df column out w = (inl (KeyError column), w') ∧
        (∀ p d, fs w' !! p = Some (File d) ↔ fs w !! p = Some (File d)) ∧
        fs w' !! (out // "summary_statistics.txt") = fs w !! (out // "summary_statistics.txt") ∧
        fs w' !! (out // "histogram.png") = fs w !! (out // "histogram.png") ∧
        fs w' !! (out // "boxplot.png") = fs w !! (out // "boxplot.png").
Proof.
  intros Hc%not_elem_of_dom Hmk. destruct w as [f figs o]. simpl in *.
  eexists. rewrite (analyse_absent_eq _ _ _ _ _ _ Hc), Hmk. split; [done|].
  simpl. split_and!; eauto using mkdir_parents_files, mkdir_parents_below.
Qed.

(** C9: the directory is made before the column is looked up, so after
    a run that fails on an absent column the file system is the one
    [mkdir] left: the output directory exists, and no file has been
    written. *)
Theorem absent_column_keeps_directory df column out w f1 :
  column ∉ dom df →
  mkdir_parents out (fs w) = inr f1 →
  ∃ w', analyse_dataframe df column out w = (inl (KeyError column), w') ∧
        fs w' = f1 ∧
        is_dir (fs w') out = true ∧
        (∀ p d, fs w' !! p = Some (File d) ↔ fs w !! p = Some (File d)).
Proof.
  intros Hc%not_elem_of_dom Hmk. destruct w as [f figs o]. simpl in *.
  eexists. rewrite (analyse_absent_eq _ _ _ _ _ _ Hc), Hmk. split; [done|].
  simpl. split_and!; eauto using mkdir_parents_files.
  unfold is_dir. by apply mkdir_parents_inr in Hmk as [-> _].
Qed.
Lemma summary_written_lines s :
  summary_written (NumCol s)
  = unlines (["Summary statistics"] ++
             imap (fun i label =>
                     ljust 8 label +:+ format_values (snd <$> describe_numeric s) i)
                  ["count"; "mean"; "std"; "min"; "25%"; "50%"; "75%"; "max"] ++
             [""; "Mode: " +:+ str_mode (head (col_mode (NumCol s)))]).
Proof.
  unfold to_string, describe. cbn -[String.append ljust col_mode Qc_of_nat].
  rewrite !string_app_assoc. reflexivity.
Qed.

(** C5: after a successful run the summary file reads: the line
    "Summary statistics"; the eight lines of the statistic block, each
    the label (count, mean, std, min, 25%, 50%, 75%, max) padded to a
    common width and followed by its value; an empty line; and the
    line "Mode: " followed by the mode of line 69. *)
Theorem summary_text_shape df column out w w' :
  analyse_dataframe df column out w = (inr (), w') →
  ∃ s m,
    df !! column = Some (NumCol s) ∧
    column_mode df column w = (inr m, w) ∧
    fs w' !! (out // "summary_statistics.txt")
    = Some (File (unlines
                    (["Summary statistics"] ++
                     imap (fun i label =>
                             ljust 8 label +:+
                             format_values (snd <$> describe_numeric s) i)
                          ["count"; "mean"; "std"; "min"; "25%"; "50%"; "75%"; "max"] ++
                     [""; "Mode: " +:+ str_mode m]))).
Proof.
  intros (s & f1 & Hc & Hmk & _ & _ & _ & ->)%analyse_success_inv.
  exists s, (head (col_mode (NumCol s))). split_and!; [done|by apply column_mode_run|].
  cbn [fs]. rewrite !lookup_insert_ne by (by intros [=]).
  rewrite lookup_insert_eq. do 2 f_equal. apply summary_written_lines.
Qed.

(** C6: a successful run leaves exactly the three artifacts, at
    [summary_statistics.txt], [histogram.png] and [boxplot.png] under
    the output directory, each non-empty and with a content that does
    not depend on what was there before; the output directory exists
    (with everything above it, in a well-formed file system); and any
    other path is as before, or is a directory made on the way to the
    output directory. *)
Theorem three_artifacts_written df column out w w' :
  analyse_dataframe df column out w = (inr (), w') →
  let p1 := out // "summary_statistics.txt" in
  let p2 := out // "histogram.png" in
  let p3 := out // "boxplot.png" in
  (∃ s d1 d2 d3,
     df !! column = Some (NumCol s) ∧
     d1 = summary_written (NumCol s) ∧
     d2 = png_signature +:+ png_encode (histogram_figure column (NumCol s)) ∧
     d3 = png_signature +:+ png_encode (boxplot_figure column s) ∧
     fs w' !! p1 = Some (File d1) ∧
     fs w' !! p2 = Some (File d2) ∧
     fs w' !! p3 = Some (File d3) ∧
     d1 ≠ "" ∧ d2 ≠ "" ∧ d3 ≠ "") ∧
  is_dir (fs w') out = true ∧
  (wf_fs (fs w) → ∀ p, p `suffix_of` out → is_dir (fs w') p = true) ∧
  (∀ p, p ∉ [p1; p2; p3] →
        fs w' !! p = fs w !! p ∨
        (fs w !! p = None ∧ fs w' !! p = Some Dir ∧ p `suffix_of` out)).
Proof.
  intros (s & f1 & Hc & Hmk & _ & _ & _ & ->)%analyse_success_inv p1 p2 p3.
  pose proof (mkdir_parents_inr _ _ _ Hmk) as [Hout Hframe].
  assert (Habove : ∀ p n1 n2 n3, p `suffix_of` out →
            is_dir (<[p3 := n3]> (<[p2 := n2]> (<[p1 := n1]> f1))) p = is_dir f1 p).
  { intros p n1 n2 n3 Hsuf.
    rewrite !is_dir_insert_ne; try done;
      intros <-; apply suffix_length in Hsuf; simpl in Hsuf; lia. }
  cbn [fs]. split_and!.
  - exists s. eexists _, _, _. split_and!; try done.
    + rewrite !lookup_insert_ne by (by intros [=]). apply lookup_insert_eq.
    + rewrite lookup_insert_ne by (by intros [=]). apply lookup_insert_eq.
    + apply lookup_insert_eq.
  - rewrite Habove by done. unfold is_dir. by rewrite Hout.
  - intros Hwf p Hsuf. rewrite Habove by done.
    unfold is_dir. erewrite wf_fs_ancestors; eauto using mkdir_parents_wf.
  - intros p Hp. rewrite !lookup_insert_ne; [apply Hframe|..];
      intros <-; apply Hp; set_solver.
Qed.
End analysis_facts.

Lemma absent_column_no_artifacts_witness :
  ∃ w', toy_analyse sheet_first "missing" results_dir empty_world
        = (inl (KeyError "missing"), w') ∧
        (∀ p d, fs w' !! p = Some (File d) ↔ fs empty_world !! p = Some (File d)) ∧
        fs w' !! (results_dir // "summary_statistics.txt")
          = fs empty_world !! (results_dir // "summary_statistics.txt") ∧
        fs w' !! (results_dir // "histogram.png")
          = fs empty_world !! (results_dir // "histogram.png") ∧
        fs w' !! (results_dir // "boxplot.png")
          = fs empty_world !! (results_dir // "boxplot.png").
Proof.
  apply (absent_column_no_artifacts toy_describe_object toy_format_values
           toy_str_number toy_png_encode true
           sheet_first "missing" results_dir empty_world results_fs).
  - apply not_elem_of_dom. reflexivity.
  - vm_compute. reflexivity.
Defined.

Lemma absent_column_keeps_directory_witness :
  is_dir (fs empty_world) results_dir = false ∧
  ∃ w', toy_analyse sheet_first "missing" results_dir empty_world
        = (inl (KeyError "missing"), w') ∧
        fs w' = results_fs ∧
        is_dir (fs w') results_dir = true ∧
        (∀ p d, fs w' !! p = Some (File d) ↔ fs empty_world !! p = Some (File d)).
Proof.
  split; [reflexivity|].
  apply (absent_column_keeps_directory toy_describe_object toy_format_values
           toy_str_number toy_png_encode true
           sheet_first "missing" results_dir empty_world results_fs).
  - apply not_elem_of_dom. reflexivity.
  - vm_compute. reflexivity.
Defined.

Lemma toy_run_succeeds :
  toy_analyse sheet_first "a" results_dir empty_world = (inr (), toy_done).
Proof. vm_compute. reflexivity. Qed.

Lemma summary_text_shape_witness :
  ∃ s m,
    sheet_first !! "a" = Some (NumCol s) ∧
    column_mode sheet_first "a" empty_world = (inr m, empty_world) ∧
    fs toy_done !! (results_dir // "summary_statistics.txt")
    = Some (File (unlines
                    (["Summary statistics"] ++
                     imap (fun i label =>
                             ljust 8 label +:+
                             toy_format_values (snd <$> describe_numeric s) i)
                          ["count"; "mean"; "std"; "min"; "25%"; "50%"; "75%"; "max"] ++
                     [""; "Mode: " +:+ str_mode toy_str_number m]))).
Proof.
  apply (summary_text_shape toy_describe_object toy_format_values
           toy_str_number toy_png_encode true
           sheet_first "a" results_dir empty_world toy_done).
  vm_compute. reflexivity.
Defined.

Lemma three_artifacts_written_witness :
  (∃ s d1 d2 d3,
     sheet_first !! "a" = Some (NumCol s) ∧
     d1 = ((("Summary statistics" +:+ nl) +:+
            to_string toy_format_values (describe toy_describe_object (NumCol s))) +:+
           (nl +:+ nl)) +:+
          ("Mode: " +:+ str_mode toy_str_number (head (col_mode (NumCol s))) +:+ nl) ∧
     d2 = png_signature +:+ toy_png_encode (histogram_figure "a" (NumCol s)) ∧
     d3 = png_signature +:+ toy_png_encode (boxplot_figure "a" s) ∧
     fs toy_done !! (results_dir // "summary_statistics.txt") = Some (File d1) ∧
     fs toy_done !! (results_dir // "histogram.png") = Some (File d2) ∧
     fs toy_done !! (results_dir // "boxplot.png") = Some (File d3) ∧
     d1 ≠ "" ∧ d2 ≠ "" ∧ d3 ≠ "") ∧
  is_dir (fs toy_done) results_dir = true ∧
  (wf_fs (fs empty_world) →
   ∀ p, p `suffix_of` results_dir → is_dir (fs toy_done) p = true) ∧
  (∀ p, p ∉ [results_dir // "summary_statistics.txt";
             results_dir // "histogram.png";
             results_dir // "boxplot.png"] →
        fs toy_done !! p = fs empty_world !! p ∨
        (fs empty_world !! p = None ∧ fs toy_done !! p = Some Dir ∧
         p `suffix_of` results_dir)).
Proof.
  apply (three_artifacts_written toy_describe_object toy_format_values
           toy_str_number toy_png_encode true
           sheet_first "a" results_dir empty_world toy_done).
  vm_compute. reflexivity.
Defined.

(** ** More about [load_dataframe] *)

Lemma string_length_app (a b : string) :
  String.length (a +:+ b) = String.length a + String.length b.
Proof.
  induction a as [|x a IH]; [done|].
  change (S (String.length (a +:+ b)) = S (String.length a + String.length b)).
  by rewrite IH.
Qed.

Lemma substring_whole (b : string) :
  String.substring 0 (String.length b) b = b.
Proof. induction b as [|y b IH]; [done|]. simpl. by rewrite IH. Qed.

Lemma substring_app_r (a b : string) :
  String.substring (String.length a) (String.length b) (a +:+ b) = b.
Proof.
  induction a as [|x a IH].
  - apply substring_whole.
  - apply IH.
Qed.

Lemma rfind_app c (a b : string) :
  rfind c (a +:+ b) =
  match rfind c b with
  | Some i => Some (String.length a + i)
  | None => rfind c a
  end.
Proof.
  induction a as [|x a IH].
  - change ("" +:+ b) with b. by destruct (rfind c b).
  - change (String x a +:+ b) with (String x (a +:+ b)). simpl.
    rewrite IH. by destruct (rfind c b).
Qed.

(** [Path.suffix] of a name made of a non-empty stem, a dot and a
    non-empty extension without dots is the dot with the extension. *)
Lemma suffix_stem_ext stem e dir :
  stem ≠ "" → e ≠ "" → rfind "." e = None →
  suffix ((stem +:+ "." +:+ e) :: dir) = "." +:+ e.
Proof.
  intros Hstem He Hdot. unfold suffix. cbn [name].
  rewrite rfind_app.
  change (rfind "." ("." +:+ e)) with
    (match rfind "." e with Some i => Some (S i) | None => Some 0 end).
  rewrite Hdot, Nat.add_0_r, string_length_app.
  assert (0 < String.length stem) by (destruct stem; [done|simpl; lia]).
  assert (0 < String.length e) by (destruct e; [done|simpl; lia]).
  assert (Hlen : String.length ("." +:+ e) = S (String.length e)) by done.
  rewrite decide_True by lia.
  replace (String.length stem + String.length ("." +:+ e) - String.length stem)
    with (String.length ("." +:+ e)) by lia.
  apply substring_app_r.
Qed.

Lemma sheet_by_name_None n (wb : list (string * DataFrame)) :
  sheet_by_name n wb = None ↔ n ∉ wb.*1.
Proof.
  induction wb as [|[k df] wb IH]; simpl.
  - split; [intros _ Hin; by apply elem_of_nil in Hin | done].
  - rewrite not_elem_of_cons. case_decide as Hk.
    + subst k. split; [done|]. by intros [? _].
    + rewrite IH. split; [by split|by intros [_ ?]].
Qed.

Lemma sheet_by_name_Some n df (wb : list (string * DataFrame)) :
  NoDup wb.*1 → (n, df) ∈ wb → sheet_by_name n wb = Some df.
Proof.
  induction wb as [|[k df'] wb IH]; simpl; intros Hnd Hin.
  - by apply elem_of_nil in Hin.
  - apply NoDup_cons in Hnd as [Hk Hnd].
    apply elem_of_cons in Hin as [[= -> ->]|Hin]; [by rewrite decide_True|].
    rewrite decide_False; [by apply IH|].
    intros ->. apply Hk, list_elem_of_fmap. by exists (n, df).
Qed.

Section loader_more.
Variable parse_csv : string → option DataFrame.
Variable parse_excel : string → option (list (string * DataFrame)).

Abbreviation load_dataframe := (load_dataframe parse_csv parse_excel).

(** X1: the loader only reads: whatever the path, the sheet argument
    and the outcome, the world after the call is the world before. *)
Theorem load_dataframe_reads_only data_path sheet w :
  (load_dataframe data_path sheet w).2 = w.
Proof.
  unfold load_dataframe, read_excel, read_csv, read_bytes, mbind, M_bind.
  case_bool_decide; destruct (node_at (fs w) data_path) as [[|d]|]; try done.
  - destruct (parse_excel d) as [wb|]; [|done].
    destruct sheet as [n|]; [|done]. by destruct (sheet_by_name n wb).
  - by destruct (parse_csv d).
Qed.

Lemma load_missing_eq data_path sheet w :
  node_at (fs w) data_path = None →
  load_dataframe data_path sheet w = (inl (FileNotFoundError data_path), w).
Proof.
  intros Hnone.
  unfold load_dataframe, read_excel, read_csv, read_bytes, mbind, M_bind.
  case_bool_decide; by rewrite Hnone.
Qed.

(** X2: a path that does not exist fails with [FileNotFoundError],
    whatever its suffix and the sheet argument. *)
Theorem load_missing_file data_path sheet w :
  node_at (fs w) data_path = None →
  load_dataframe data_path sheet w = (inl (FileNotFoundError data_path), w).
Proof. intros Hnone. by apply load_missing_eq. Qed.

(** X3: asking a workbook for a sheet it does not have fails with
    [ValueError]; no other sheet is returned in its place. *)
Theorem load_unknown_sheet data_path n d wb w :
  lower (suffix data_path) ∈ [".xls"; ".xlsx"] →
  node_at (fs w) data_path = Some (File d) →
  parse_excel d = Some wb →
  n ∉ wb.*1 →
  load_dataframe data_path (Some n) w = (inl (ValueError "Worksheet not found"), w).
Proof.
  intros Hsuf Hfile Hwb Hn%sheet_by_name_None. unfold load_dataframe.
  rewrite bool_decide_true by done.
  unfold read_excel, read_bytes, mbind, M_bind. by rewrite Hfile, Hwb, Hn.
Qed.

(** X4: in a workbook whose sheet names are distinct, the sheet name
    selects the table stored under that name. *)
Theorem load_named_sheet data_path n df d wb w :
  lower (suffix data_path) ∈ [".xls"; ".xlsx"] →
  node_at (fs w) data_path = Some (File d) →
  parse_excel d = Some wb →
  NoDup wb.*1 →
  (n, df) ∈ wb →
  load_dataframe data_path (Some n) w = (inr (Frame df), w).
Proof.
  intros Hsuf Hfile Hwb Hnd Hin.
  eapply load_excel_named_sheet; eauto using sheet_by_name_Some.
Qed.

(** X5: the reader is chosen by the extension alone, whatever its letter
    case: a name [stem.ext] goes to [read_excel] when [ext] lowered is
    xls or xlsx, and to [read_csv] otherwise. *)
Theorem load_by_extension stem e dir sheet :
  stem ≠ "" → e ≠ "" → rfind "." e = None →
  load_dataframe ((stem +:+ "." +:+ e) :: dir) sheet =
  if bool_decide (lower e ∈ ["xls"; "xlsx"])
  then read_excel parse_excel ((stem +:+ "." +:+ e) :: dir) sheet
  else (df ← read_csv parse_csv ((stem +:+ "." +:+ e) :: dir); mret (Frame df)).
Proof.
  intros Hstem He Hdot. unfold load_dataframe.
  rewrite (suffix_stem_ext _ _ _ Hstem He Hdot).
  change (lower ("." +:+ e)) with ("." +:+ lower e).
  assert (Hiff : "." +:+ lower e ∈ [".xls"; ".xlsx"] ↔ lower e ∈ ["xls"; "xlsx"]).
  { change ("." +:+ lower e) with (String "." (lower e)).
    rewrite !elem_of_cons, !elem_of_nil. split.
    - intros [[= ->]|[[= ->]|[]]]; auto.
    - intros [->|[->|[]]]; auto. }
  by rewrite (bool_decide_ext _ _ Hiff).
Qed.
End loader_more.

(** ** More about the output directory *)

Lemma mkdir_parents_existing p f :
  node_at f p = Some Dir → mkdir_parents p f = inr f.
Proof.
  intros Hdir. destruct p as [|c up]; [done|].
  simpl. unfold os_mkdir, is_dir. by rewrite Hdir.
Qed.




Lemma suffix_of_cons {A} (l up : list A) c :
  l `suffix_of` c :: up → l = c :: up ∨ l `suffix_of` up.
Proof.
  intros [[|x k] Hk]; simpl in Hk; [by left|].
  right. exists k. congruence.
Qed.

Lemma mkdir_parents_ok_iff p f :
  wf_fs f →
  (∃ f1, mkdir_parents p f = inr f1) ↔
  (∀ p' d, p' `suffix_of` p → node_at f p' ≠ Some (File d)).
Proof.
  intros Hwf. induction p as [|c up IH].
  - split; [|by eexists]. intros _ p' d Hsuf.
    apply suffix_nil_inv in Hsuf as ->. done.
  - simpl. unfold os_mkdir, is_dir. cbn [node_at parent tail].
    destruct (f !! (c :: up)) as [[|d0]|] eqn:Hp.
    + split; [|by eexists]. intros _ p' d Hsuf.
      erewrite (wf_fs_ancestors f (c :: up) p'); done.
    + split; [by intros [f1 [=]]|]. intros Hall. exfalso.
      by apply (Hall (c :: up) d0).
    + destruct (node_at f up) as [[|d0]|] eqn:Hup.
      * split; [|by eexists]. intros _ p' d Hsuf.
        apply suffix_of_cons in Hsuf as [->|Hsuf]; [simpl; congruence|].
        erewrite (wf_fs_ancestors f up p'); done.
      * split; [by intros [f1 [=]]|]. intros Hall. exfalso.
        apply (Hall up d0); [by apply suffix_cons_r|done].
      * destruct (mkdir_parents up f) as [e|f1] eqn:Hmk.
        -- split; [by intros [f2 [=]]|]. intros Hall. exfalso.
           assert (Hex : ∃ f2, @inl exn (gmap path node) e = inr f2); [|by destruct Hex].
           apply IH. intros p' d Hsuf. apply Hall. by apply suffix_cons_r.
        -- assert (Hok : ∃ f2, mkdir_exist_ok (c :: up) f1 = inr f2).
           { apply mkdir_parents_inr in Hmk as [Hdir Hframe].
             unfold mkdir_exist_ok, os_mkdir. cbn [node_at parent tail].
             destruct (Hframe (c :: up)) as [Heq|(_ & _ & Hsuf)].
             - rewrite Heq, Hp, Hdir. by eexists.
             - apply suffix_length in Hsuf. simpl in Hsuf. lia. }
           split; [|by intros _]. intros _ p' d Hsuf.
           apply suffix_of_cons in Hsuf as [->|Hsuf]; [simpl; congruence|].
           assert (Hex : ∃ f2, @inr exn (gmap path node) f1 = inr f2) by by eexists.
           by apply IH.
Qed.

(** X6: in a well-formed file system [mkdir(parents=True,
    exist_ok=True)] succeeds exactly when neither the path nor anything
    above it is a regular file. *)
Theorem mkdir_parents_succeeds_iff p f :
  wf_fs f →
  (∃ f1, mkdir_parents p f = inr f1) ↔
  (∀ p' d, p' `suffix_of` p → node_at f p' ≠ Some (File d)).
Proof.
  intros Hwf. split.
  - intros Hok p' d Hsuf. by apply (proj1 (mkdir_parents_ok_iff p f Hwf) Hok).
  - intros Hfree. by apply (proj2 (mkdir_parents_ok_iff p f Hwf)).
Qed.

Lemma mkdir_parents_succeeds_iff_witness :
  (∃ f1, mkdir_parents results_dir ∅ = inr f1) ↔
  (∀ p' d, p' `suffix_of` results_dir → node_at ∅ p' ≠ Some (File d)).
Proof.
  apply (mkdir_parents_succeeds_iff results_dir ∅).
  intros p n Hp. by rewrite lookup_empty in Hp.
Defined.

(** ** Relations a run keeps *)

Section keeping.
Context (I : world → world → Prop) `{!Reflexive I, !Transitive I}.

Lemma keeps_ret {A} (a : A) : keeps I (mret a).
Proof. intros w r w' [= <- <-]. reflexivity. Qed.

Lemma keeps_raise {A} (e : exn) : keeps I (raise (A:=A) e).
Proof. intros w r w' [= <- <-]. reflexivity. Qed.

Lemma keeps_bind {A B} (m : M A) (k : A → M B) :
  keeps I m → (∀ a, keeps I (k a)) → keeps I (m ≫= k).
Proof.
  intros Hm Hk w r w'. unfold mbind, M_bind.
  destruct (m w) as [[e|a] w1] eqn:Hmw.
  - intros [= <- <-]. by eapply Hm.
  - intros Hka. etransitivity; [by eapply Hm|by eapply Hk].
Qed.
End keeping.

Lemma keeps_weaken {A} (I I' : world → world → Prop) (m : M A) :
  (∀ w w', I w w' → I' w w') → keeps I m → keeps I' m.
Proof. intros Hsub Hm w r w' Hrun. by eapply Hsub, Hm. Qed.

#[export] Instance same_disk_refl : Reflexive same_disk.
Proof. by intros w. Qed.

#[export] Instance same_disk_trans : Transitive same_disk.
Proof. intros w1 w2 w3 [? ?] [? ?]. split; congruence. Qed.

#[export] Instance quiet_refl : Reflexive quiet.
Proof. by intros w. Qed.

#[export] Instance quiet_trans : Transitive quiet.
Proof. unfold quiet. intros w1 w2 w3 ? ?. congruence. Qed.

#[export] Instance confined_refl out : Reflexive (confined out).
Proof. intros w p. by left. Qed.

#[export] Instance confined_trans out : Transitive (confined out).
Proof.
  intros w1 w2 w3 H12 H23 p. specialize (H12 p). specialize (H23 p).
  unfold touched_within in *.
  destruct H23 as [Heq|[(Hn & Hd & Hs)|(Hin & Hnd & d & Hf)]].
  - rewrite Heq. done.
  - destruct H12 as [Heq|[(Hn' & Hd' & _)|(_ & _ & d & Hf)]].
    + right; left. by rewrite <- Heq.
    + congruence.
    + congruence.
  - destruct H12 as [Heq|[(Hn' & Hd' & _)|(_ & Hnd' & _)]].
    + right; right. rewrite <- Heq. eauto.
    + congruence.
    + right; right. eauto.
Qed.

Lemma same_disk_quiet w w' : same_disk w w' → quiet w w'.
Proof. by intros [_ ?]. Qed.

Lemma same_disk_confined out w w' : same_disk w w' → confined out w w'.
Proof. intros [Hfs _] p. left. by rewrite Hfs. Qed.

Create HintDb keeps discriminated.

(** The pyplot calls and the lookups leave the disk and the output alone. *)
Lemma same_disk_modify_figures g : keeps same_disk (modify_figures g).
Proof. by intros w r w' [= <- <-]. Qed.

Lemma same_disk_gcf : keeps same_disk gcf.
Proof. intros w r w'. unfold gcf. destruct (figures w); by intros [= <- <-]. Qed.

Lemma same_disk_on_current g : keeps same_disk (on_current g).
Proof.
  apply keeps_bind; try apply _; [apply same_disk_gcf|].
  intros _. apply same_disk_modify_figures.
Qed.

Lemma same_disk_getitem df column : keeps same_disk (getitem df column).
Proof. intros w r w'. unfold getitem. destruct (df !! column); by intros [= <- <-]. Qed.

Lemma same_disk_column_mode df column : keeps same_disk (column_mode df column).
Proof.
  intros w r w'. unfold column_mode, getitem, iloc, mbind, M_bind.
  destruct (df !! column) as [c|]; [|by intros [= <- <-]]. simpl.
  destruct (col_mode c) as [|v l]; by intros [= <- <-].
Qed.

Lemma same_disk_hist b c bins edgecolor : keeps same_disk (hist b c bins edgecolor).
Proof.
  unfold hist. destruct (is_numeric c || b); [|apply keeps_raise, _].
  apply keeps_bind; try apply _; [apply same_disk_on_current|].
  intros _. apply same_disk_on_current.
Qed.

Lemma same_disk_boxplot df column : keeps same_disk (boxplot df column).
Proof.
  unfold boxplot. apply keeps_bind; try apply _; [apply same_disk_gcf|].
  intros _. case_decide; [apply keeps_raise, _|].
  destruct (filter _ df !! column) as [[s|s]|]; try apply keeps_raise, _.
  apply keeps_bind; try apply _; [apply same_disk_on_current|].
  intros _. apply same_disk_on_current.
Qed.

(** The file operations stay within the output directory. *)
Lemma quiet_mkdir out : keeps quiet (mkdir out).
Proof.
  intros w r w'. unfold mkdir.
  destruct (mkdir_parents out (fs w)); by intros [= <- <-].
Qed.

Lemma confined_mkdir out : keeps (confined out) (mkdir out).
Proof.
  intros w r w'. unfold mkdir.
  destruct (mkdir_parents out (fs w)) as [e|f1] eqn:Hmk; intros [= <- <-].
  - reflexivity.
  - intros p. apply mkdir_parents_inr in Hmk as [_ Hframe].
    destruct (Hframe p) as [?|?]; [by left|by right; left].
Qed.

Lemma quiet_open_w p : keeps quiet (open_w p).
Proof.
  intros w r w'. unfold open_w.
  destruct (node_at (fs w) p) as [[|d]|];
    destruct (node_at (fs w) (parent p)) as [[|d']|]; by intros [= <- <-].
Qed.

Lemma confined_open_w out p :
  p ∈ artifact_paths out → keeps (confined out) (open_w p).
Proof.
  intros Hp w r w' Hrun q.
  assert (Hne : p ≠ []).
  { intros ->. unfold artifact_paths in Hp.
    rewrite !elem_of_cons, elem_of_nil in Hp. by destruct Hp as [?|[?|[?|[]]]]. }
  assert (Hnode : node_at (fs w) p = fs w !! p) by by destruct p.
  unfold open_w in Hrun. rewrite Hnode in Hrun.
  assert (Hdone : ∀ n, fs w !! p ≠ Some Dir →
            touched_within out (fs w) (<[p := File n]> (fs w)) q).
  { intros n Hnd. destruct (decide (p = q)) as [<-|Hpq].
    - right; right. split_and!; [done..|]. exists n. apply lookup_insert_eq.
    - left. by apply lookup_insert_ne. }
  destruct (fs w !! p) as [[|d]|] eqn:Hlook.
  - injection Hrun as <- <-. by left.
  - destruct (node_at (fs w) (parent p)) as [[|d']|]; injection Hrun as <- <-;
      try (by left). by apply Hdone.
  - destruct (node_at (fs w) (parent p)) as [[|d']|]; injection Hrun as <- <-;
      try (by left). by apply Hdone.
Qed.

Lemma quiet_write p s : keeps quiet (write p s).
Proof. by intros w r w' [= <- <-]. Qed.

Lemma confined_write out p s :
  p ∈ artifact_paths out → keeps (confined out) (write p s).
Proof.
  intros Hp w r w' [= <- <-] q. cbn [fs set_fs].
  destruct (decide (p = q)) as [<-|Hpq]; [|left; by apply lookup_alter_ne].
  unfold touched_within. rewrite lookup_alter_eq.
  destruct (fs w !! p) as [[|d]|] eqn:Hlook.
  - by left.
  - right; right. split_and!; [done..|]. by eexists.
  - by left.
Qed.

Lemma quiet_plt_savefig enc p : keeps quiet (plt_savefig enc p).
Proof.
  unfold plt_savefig. apply keeps_bind; try apply _.
  - eapply keeps_weaken; [apply same_disk_quiet|apply same_disk_gcf].
  - intros fig. apply keeps_bind; try apply _; [apply quiet_open_w|].
    intros _. apply quiet_write.
Qed.

Lemma confined_plt_savefig out enc p :
  p ∈ artifact_paths out → keeps (confined out) (plt_savefig enc p).
Proof.
  intros Hp. unfold plt_savefig. apply keeps_bind; try apply _.
  - eapply keeps_weaken; [apply same_disk_confined|apply same_disk_gcf].
  - intros fig. apply keeps_bind; try apply _; [by apply confined_open_w|].
    intros _. by apply confined_write.
Qed.

Lemma confined_print out line : keeps (confined out) (print line).
Proof. intros w r w' [= <- <-] p. by left. Qed.

Lemma same_disk_plt_figure size : keeps same_disk (plt_figure size).
Proof. apply same_disk_modify_figures. Qed.

Lemma same_disk_plt_close : keeps same_disk plt_close.
Proof. apply same_disk_modify_figures. Qed.

Lemma same_disk_plt_title s : keeps same_disk (plt_title s).
Proof. apply same_disk_on_current. Qed.

Lemma same_disk_plt_xlabel s : keeps same_disk (plt_xlabel s).
Proof. apply same_disk_on_current. Qed.

Lemma same_disk_plt_ylabel s : keeps same_disk (plt_ylabel s).
Proof. apply same_disk_on_current. Qed.

Lemma same_disk_plt_tight_layout : keeps same_disk plt_tight_layout.
Proof. apply same_disk_on_current. Qed.

#[export] Hint Resolve same_disk_getitem same_disk_column_mode same_disk_hist
  same_disk_boxplot same_disk_plt_figure same_disk_plt_close same_disk_plt_title
  same_disk_plt_xlabel same_disk_plt_ylabel same_disk_plt_tight_layout : keeps.

Lemma quiet_of_same_disk {A} (m : M A) : keeps same_disk m → keeps quiet m.
Proof. apply keeps_weaken, same_disk_quiet. Qed.

Lemma confined_of_same_disk {A} out (m : M A) :
  keeps same_disk m → keeps (confined out) m.
Proof. apply keeps_weaken, same_disk_confined. Qed.

Lemma artifact_summary out : out // "summary_statistics.txt" ∈ artifact_paths out.
Proof. by left. Qed.

Lemma artifact_histogram out : out // "histogram.png" ∈ artifact_paths out.
Proof. right. by left. Qed.

Lemma artifact_boxplot out : out // "boxplot.png" ∈ artifact_paths out.
Proof. right. right. by left. Qed.

#[export] Hint Resolve artifact_summary artifact_histogram artifact_boxplot
  quiet_mkdir quiet_open_w quiet_write quiet_plt_savefig
  confined_mkdir confined_open_w confined_write confined_plt_savefig
  confined_print : keeps.

#[export] Hint Extern 5 (keeps quiet _) =>
  apply quiet_of_same_disk; solve [auto with keeps] : keeps.
#[export] Hint Extern 5 (keeps (confined _) _) =>
  apply confined_of_same_disk; solve [auto with keeps] : keeps.

Lemma confined_bind {A B} out (m : M A) (k : A → M B) :
  keeps (confined out) m → (∀ a, keeps (confined out) (k a)) →
  keeps (confined out) (m ≫= k).
Proof. apply keeps_bind, _. Qed.

Lemma quiet_on_failure_bind {A B} (m : M A) (k : A → M B) :
  keeps quiet m → (∀ a, quiet_on_failure (k a)) → quiet_on_failure (m ≫= k).
Proof.
  intros Hm Hk w e w'. unfold mbind, M_bind.
  destruct (m w) as [[e1|a] w1] eqn:Hmw.
  - intros [= <- <-]. by eapply Hm.
  - intros Hka. etransitivity; [by eapply Hm|by eapply Hk].
Qed.

Lemma is_dir_below out f f1 c :
  mkdir_parents out f = inr f1 → is_dir f1 (out // c) = is_dir f (out // c).
Proof.
  intros Hmk. unfold is_dir. cbn [node_at joinpath].
  by rewrite (mkdir_parents_below _ _ _ _ Hmk).
Qed.

(** ** More about [analyse_dataframe] *)

Section analysis_more.
Variable describe_object : list (option string) → list (string * stat).
Variable format_values : list stat → nat → string.
Variable str_number : Qc → string.
Variable png_encode : figure → string.
Variable hist_accepts_text : bool.

Abbreviation analyse_dataframe :=
  (analyse_dataframe describe_object format_values str_number png_encode hist_accepts_text).
Abbreviation summary_text c :=
  (((("Summary statistics" +:+ nl) +:+
     to_string format_values (describe describe_object c)) +:+ (nl +:+ nl))
   +:+ ("Mode: " +:+ str_mode str_number (head (col_mode c)) +:+ nl)).

Lemma analyse_keeps_confined df column out :
  keeps (confined out) (analyse_dataframe df column out).
Proof.
  unfold analyse_dataframe.
  repeat (apply confined_bind; [solve [auto with keeps]|intros ?]).
  auto with keeps.
Qed.

(** X12: whatever its outcome, a run only makes directories on the way
    to the output directory and writes files at the three artifact
    paths: every other path is as before, nothing that existed is gone,
    and what was a directory is still one. *)
Theorem analyse_stays_in_output_dir df column out w :
  (∀ p, p ∉ artifact_paths out →
        fs (analyse_dataframe df column out w).2 !! p = fs w !! p ∨
        (fs w !! p = None ∧
         fs (analyse_dataframe df column out w).2 !! p = Some Dir ∧
         p `suffix_of` out)) ∧
  (∀ p n, fs w !! p = Some n →
          is_Some (fs (analyse_dataframe df column out w).2 !! p)) ∧
  (∀ p, fs w !! p = Some Dir →
        fs (analyse_dataframe df column out w).2 !! p = Some Dir).
Proof.
  destruct (analyse_dataframe df column out w) as [r w'] eqn:Hrun.
  pose proof (analyse_keeps_confined _ _ _ _ _ _ Hrun) as Hconf.
  cbn [snd]. split_and!.
  - intros p Hp. destruct (Hconf p) as [?|[?|(Hin & _)]]; [by left|by right|done].
  - intros p n Hn. destruct (Hconf p) as [->|[(Hnone & _)|(_ & _ & d & ->)]];
      [by rewrite Hn|congruence|done].
  - intros p Hd. destruct (Hconf p) as [->|[(Hnone & _)|(_ & Hnd & _)]];
      [done|congruence|done].
Qed.
Lemma analyse_quiet_on_failure df column out :
  quiet_on_failure (analyse_dataframe df column out).
Proof.
  unfold analyse_dataframe.
  repeat (apply quiet_on_failure_bind; [solve [auto with keeps]|intros ?]).
  by intros w e w' [=].
Qed.

(** X11: a run that fails has printed nothing: the three confirmations
    come after the last step that can fail. *)
Theorem failed_run_prints_nothing df column out w e w' :
  analyse_dataframe df column out w = (inl e, w') →
  stdout w' = stdout w.
Proof. apply analyse_quiet_on_failure. Qed.


(** X9: a successful run closes every figure it opened, and prints
    exactly the three confirmations, naming the three artifacts in the
    order summary, histogram, box plot. *)
Theorem successful_run_output df column out w w' :
  analyse_dataframe df column out w = (inr (), w') →
  figures w' = figures w ∧
  stdout w' = stdout w ++
    ["Summary saved to " +:+ path_str (out // "summary_statistics.txt");
     "Histogram saved to " +:+ path_str (out // "histogram.png");
     "Box plot saved to " +:+ path_str (out // "boxplot.png")].
Proof.
  intros Hrun. apply analyse_success_inv in Hrun.
  by destruct Hrun as (s & f1 & _ & _ & _ & _ & _ & ->).
Qed.

(** X10: running the analysis again after a success succeeds again and
    leaves the file system as the first run left it: the artifacts are
    overwritten with the same contents. *)
Theorem rerun_is_idempotent df column out w w' :
  analyse_dataframe df column out w = (inr (), w') →
  ∃ w'', analyse_dataframe df column out w' = (inr (), w'') ∧
         fs w'' = fs w' ∧ figures w'' = figures w'.
Proof.
  intros Hrun. apply analyse_success_inv in Hrun.
  destruct Hrun as (s & f1 & Hc & Hmk & H1 & H2 & H3 & ->).
  apply mkdir_parents_inr in Hmk as [Hout _].
  set (p1 := out // "summary_statistics.txt") in *.
  set (p2 := out // "histogram.png") in *.
  set (p3 := out // "boxplot.png") in *.
  set (d1 := File (summary_text (NumCol s))).
  set (d2 := File (png_signature +:+ png_encode (histogram_figure column (NumCol s)))).
  set (d3 := File (png_signature +:+ png_encode (boxplot_figure column s))).
  set (f4 := <[p3 := d3]> (<[p2 := d2]> (<[p1 := d1]> f1))).
  assert (Hp12 : p1 ≠ p2) by (by intros [=]).
  assert (Hp13 : p1 ≠ p3) by (by intros [=]).
  assert (Hp23 : p2 ≠ p3) by (by intros [=]).
  assert (Hl1 : f4 !! p1 = Some d1).
  { unfold f4. rewrite !lookup_insert_ne by done. apply lookup_insert_eq. }
  assert (Hl2 : f4 !! p2 = Some d2).
  { unfold f4. rewrite lookup_insert_ne by done. apply lookup_insert_eq. }
  assert (Hl3 : f4 !! p3 = Some d3) by apply lookup_insert_eq.
  assert (Hout4 : node_at f4 out = Some Dir).
  { unfold f4. rewrite !node_at_insert_ne; try done; apply joinpath_ne. }
  pose proof (mkdir_parents_existing _ _ Hout4) as Hmk4.
  rewrite (analyse_numeric_eq _ _ _ _ _ _ _ _ _ _ _ _ _ Hc Hmk4).
  cbv zeta. fold p1 p2 p3 d1 d2 d3.
  assert (Hd1 : is_dir f4 p1 = false).
  { unfold is_dir, p1. cbn [node_at joinpath]. fold p1. by rewrite Hl1. }
  assert (Hd2 : is_dir f4 p2 = false).
  { unfold is_dir, p2. cbn [node_at joinpath]. fold p2. by rewrite Hl2. }
  assert (Hd3 : is_dir f4 p3 = false).
  { unfold is_dir, p3. cbn [node_at joinpath]. fold p3. by rewrite Hl3. }
  rewrite Hd1, Hd2, Hd3.
  eexists. split; [done|]. cbn [fs figures]. split; [|done].
  rewrite (insert_id f4 p1 d1 Hl1), (insert_id f4 p2 d2 Hl2).
  apply (insert_id f4 p3 d3 Hl3).
Qed.

Lemma boxplot_text_fail_eq df column s f fig figs o :
  df !! column = Some (StrCol s) →
  ∃ e, boxplot df column {| fs := f; figures := fig :: figs; stdout := o |}
       = (inl e, {| fs := f; figures := fig :: figs; stdout := o |}).
Proof.
  intros Hc. unfold boxplot. erewrite bind_inr; [|reflexivity].
  case_decide; [by eexists|].
  destruct (filter _ df !! column) as [[s'|s']|] eqn:Hf; try by eexists.
  apply map_lookup_filter_Some in Hf as [Hc' _]. congruence.
Qed.

Lemma plt_figure_run size f figs o :
  plt_figure size {| fs := f; figures := figs; stdout := o |}
  = (inr (), {| fs := f; figures := new_figure size :: figs; stdout := o |}).
Proof. reflexivity. Qed.

Lemma plt_close_run f fig figs o :
  plt_close {| fs := f; figures := fig :: figs; stdout := o |}
  = (inr (), {| fs := f; figures := figs; stdout := o |}).
Proof. reflexivity. Qed.

Lemma hist_text_run s bins edgecolor f fig figs o :
  hist true (StrCol s) bins edgecolor
    {| fs := f; figures := fig :: figs; stdout := o |}
  = (inr (), {| fs := f;
                figures := add_artist Grid
                             (add_artist (Hist (col_values (StrCol s)) bins edgecolor) fig)
                           :: figs;
                stdout := o |}).
Proof. reflexivity. Qed.

Lemma hist_text_fail s bins edgecolor w :
  hist false (StrCol s) bins edgecolor w = (inl TypeError, w).
Proof. reflexivity. Qed.

(** X13: on a column of text the run fails, but not before the summary
    file has been written: it is left behind, with a figure still open,
    and no box plot is written. *)
Theorem text_column_partial_run df column out w s f1 :
  df !! column = Some (StrCol s) →
  mkdir_parents out (fs w) = inr f1 →
  is_dir (fs w) (out // "summary_statistics.txt") = false →
  ∃ e w',
    analyse_dataframe df column out w = (inl e, w') ∧
    fs w' !! (out // "summary_statistics.txt") = Some (File (summary_text (StrCol s))) ∧
    fs w' !! (out // "boxplot.png") = fs w !! (out // "boxplot.png") ∧
    length (figures w') = S (length (figures w)).
Proof.
  intros Hc Hmk Hp1. destruct w as [f figs o]. cbn [fs figures] in *.
  pose proof (mkdir_parents_inr _ _ _ Hmk) as [Hout _].
  rewrite <- (is_dir_below _ _ _ _ Hmk) in Hp1.
  rewrite <- (mkdir_parents_below _ _ _ "boxplot.png" Hmk).
  set (p1 := out // "summary_statistics.txt") in *.
  set (p2 := out // "histogram.png") in *.
  set (p3 := out // "boxplot.png") in *.
  set (f2 := <[p1 := File (summary_text (StrCol s))]> f1).
  assert (Hp12 : p1 ≠ p2) by (by intros [=]).
  assert (Hp13 : p1 ≠ p3) by (by intros [=]).
  assert (Hp23 : p2 ≠ p3) by (by intros [=]).
  assert (Hout2 : node_at f2 out = Some Dir).
  { unfold f2. rewrite node_at_insert_ne; [done..|apply joinpath_ne]. }
  assert (Hl1 : f2 !! p1 = Some (File (summary_text (StrCol s))))
    by apply lookup_insert_eq.
  assert (Hl3 : f2 !! p3 = f1 !! p3) by by apply lookup_insert_ne.
  unfold analyse_dataframe.
  erewrite bind_inr; [|by apply mkdir_run].
  erewrite bind_inr; [|by apply getitem_run].
  erewrite bind_inr; [|by apply column_mode_run].
  fold p1 p2 p3.
  erewrite bind_inr; [|by apply open_w_run].
  do 4 (erewrite bind_inr; [|apply write_run]).
  erewrite bind_inr; [|apply plt_figure_run].
  erewrite bind_inr; [|by apply getitem_run].
  fold f2. revert Hc. generalize hist_accepts_text. intros [|] Hc.
  - erewrite bind_inr; [|apply hist_text_run].
    do 4 (erewrite bind_inr; [|apply on_current_run]).
    destruct (is_dir f2 p2) eqn:Hp2.
    { erewrite bind_inl; [|by apply plt_savefig_fail].
      eexists _, _. split; [done|]. cbn [fs figures length].
      split_and!; [exact Hl1|exact Hl3|done]. }
    erewrite bind_inr; [|by apply plt_savefig_run].
    erewrite bind_inr; [|apply plt_close_run].
    erewrite bind_inr; [|apply plt_figure_run].
    edestruct (boxplot_text_fail_eq df column s) as [e He]; [done|].
    erewrite bind_inl; [|apply He].
    eexists _, _. split; [done|].
    cbn [fs figures length].
    split_and!; [|rewrite lookup_insert_ne by done; exact Hl3|done].
    rewrite lookup_insert_ne by done. exact Hl1.
  - erewrite bind_inl; [|apply hist_text_fail].
    eexists _, _. split; [done|]. cbn [fs figures length].
    split_and!; [exact Hl1|exact Hl3|done].
Qed.

End analysis_more.

(** ** Facts about [main] *)

Section script_facts.
Variable parse_csv : string → option DataFrame.
Variable parse_excel : string → option (list (string * DataFrame)).
Variable describe_object : list (option string) → list (string * stat).
Variable format_values : list stat → nat → string.
Variable str_number : Qc → string.
Variable png_encode : figure → string.
Variable hist_accepts_text : bool.
Variable Path : string → path.
Variable colab_drive_mount : option (string → M unit).
Variable parse_args : Script Namespace.
Variable frame_steps : DataFrame → string → path → Script unit.

Abbreviation main :=
  (main parse_csv parse_excel describe_object format_values str_number png_encode
     hist_accepts_text Path colab_drive_mount parse_args frame_steps).
Abbreviation analyse_loaded :=
  (analyse_loaded describe_object format_values str_number png_encode
     hist_accepts_text frame_steps).
Abbreviation analyse_dataframe :=
  (analyse_dataframe describe_object format_values str_number png_encode hist_accepts_text).
Abbreviation load_dataframe := (load_dataframe parse_csv parse_excel).
Abbreviation mount_google_drive := (mount_google_drive Path colab_drive_mount).

Lemma script_bind_inr {A B} (m : Script A) (k : A → Script B) w a w' :
  m w = (inr a, w') → (m ≫= k) w = k a w'.
Proof. unfold mbind, Script_bind. by intros ->. Qed.

Lemma script_bind_inl {A B} (m : Script A) (k : A → Script B) w e w' :
  m w = (inl e, w') → (m ≫= k) w = (inl e, w').
Proof. unfold mbind, Script_bind. by intros ->. Qed.


Lemma lift_inr {A} (m : M A) w a w' : m w = (inr a, w') → lift m w = (inr a, w').
Proof. unfold lift. by intros ->. Qed.

Lemma lift_inl {A} (m : M A) w e w' :
  m w = (inl e, w') → lift m w = (inl (Raised e), w').
Proof. unfold lift. by intros ->. Qed.




(** The mount step, when skipped or without Colab, only prints. *)
Lemma mount_step_prints args w :
  args_skip_mount args = true ∨ colab_drive_mount = None →
  ∃ lines,
    (if negb (args_skip_mount args)
     then lift (mount_google_drive "/content/drive")
     else mret ()) w
    = (inr (), {| fs := fs w; figures := figures w; stdout := stdout w ++ lines |}).
Proof.
  intros [Hskip|Hcolab].
  - rewrite Hskip. exists []. destruct w. cbn. by rewrite app_nil_r.
  - destruct (args_skip_mount args); cbn [negb].
    + exists []. destruct w. cbn. by rewrite app_nil_r.
    + unfold mount_google_drive. rewrite Hcolab. by eexists.
Qed.

(** X15: when the data file does not exist (and the mount step is
    skipped or Colab is absent), [main] prints its warning and goes on
    to the loader, which fails with [FileNotFoundError]; the file system
    is untouched, so no output directory has been made. *)
Theorem main_missing_data_file w args w1 :
  parse_args w = (inr args, w1) →
  args_skip_mount args = true ∨ colab_drive_mount = None →
  node_at (fs w1) (Path (args_data_path args)) = None →
  ∃ w', main w = (inl (Raised (FileNotFoundError (Path (args_data_path args)))), w') ∧
        fs w' = fs w1 ∧
        figures w' = figures w1 ∧
        last (stdout w') =
          Some ("Warning: " +:+ path_str (Path (args_data_path args)) +:+
                " does not exist on this environment. " +:+
                "Confirm the path when running in Google Colab.").
Proof.
  intros Hargs Hmount Hnone. unfold main.
  rewrite (script_bind_inr _ _ _ _ _ Hargs).
  destruct (mount_step_prints args w1 Hmount) as [lines Hstep].
  rewrite (script_bind_inr _ _ _ _ _ Hstep).
  erewrite script_bind_inr;
    [|apply lift_inr; unfold path_exists; cbn [fs]; rewrite Hnone; reflexivity].
  cbn [negb]. erewrite script_bind_inr; [|apply lift_inr; reflexivity].
  erewrite script_bind_inl; [|apply lift_inl, load_missing_eq; exact Hnone].
  eexists. split; [done|]. cbn [fs figures stdout]. split_and!; [done..|].
  apply last_snoc.
Qed.

End script_facts.

(** ** The statements above at sample inputs *)

Lemma load_missing_file_witness :
  load_dataframe toy_parse_csv toy_parse_excel ["nowhere.xlsx"] (Some "first") disk_world
  = (inl (FileNotFoundError ["nowhere.xlsx"]), disk_world).
Proof.
  apply (load_missing_file toy_parse_csv toy_parse_excel
           ["nowhere.xlsx"] (Some "first") disk_world).
  reflexivity.
Defined.

Lemma load_unknown_sheet_witness :
  load_dataframe toy_parse_csv toy_parse_excel ["book.xlsx"] (Some "third") disk_world
  = (inl (ValueError "Worksheet not found"), disk_world).
Proof.
  apply (load_unknown_sheet toy_parse_csv toy_parse_excel ["book.xlsx"] "third"
           "workbook" [("first", sheet_first); ("second", sheet_second)] disk_world).
  - vm_compute. apply list_elem_of_In. right. left. reflexivity.
  - reflexivity.
  - reflexivity.
  - intros Hin. apply list_elem_of_In in Hin.
    destruct Hin as [Heq|[Heq|[]]]; discriminate Heq.
Defined.

Lemma load_named_sheet_witness :
  load_dataframe toy_parse_csv toy_parse_excel ["book.xlsx"] (Some "second") disk_world
  = (inr (Frame sheet_second), disk_world).
Proof.
  apply (load_named_sheet toy_parse_csv toy_parse_excel ["book.xlsx"] "second"
           sheet_second "workbook"
           [("first", sheet_first); ("second", sheet_second)] disk_world).
  - vm_compute. apply list_elem_of_In. right. left. reflexivity.
  - reflexivity.
  - reflexivity.
  - apply NoDup_cons. split.
    + intros Hin. apply list_elem_of_In in Hin. destruct Hin as [Heq|[]].
      discriminate Heq.
    + apply NoDup_singleton.
  - apply list_elem_of_In. right. left. reflexivity.
Defined.

Lemma load_by_extension_witness :
  load_dataframe toy_parse_csv toy_parse_excel ["Book.XLSX"] None
  = if bool_decide (lower "XLSX" ∈ ["xls"; "xlsx"])
    then read_excel toy_parse_excel ["Book.XLSX"] None
    else (df ← read_csv toy_parse_csv ["Book.XLSX"]; mret (Frame df)).
Proof.
  apply (load_by_extension toy_parse_csv toy_parse_excel "Book" "XLSX" [] None).
  - discriminate.
  - discriminate.
  - reflexivity.
Defined.


Lemma successful_run_output_witness :
  figures toy_done = figures empty_world ∧
  stdout toy_done = stdout empty_world ++
    ["Summary saved to " +:+ path_str (results_dir // "summary_statistics.txt");
     "Histogram saved to " +:+ path_str (results_dir // "histogram.png");
     "Box plot saved to " +:+ path_str (results_dir // "boxplot.png")].
Proof.
  apply (successful_run_output toy_describe_object toy_format_values toy_str_number
           toy_png_encode true sheet_first "a" results_dir empty_world toy_done).
  vm_compute. reflexivity.
Defined.

Lemma rerun_is_idempotent_witness :
  ∃ w'', toy_analyse sheet_first "a" results_dir toy_done = (inr (), w'') ∧
         fs w'' = fs toy_done ∧ figures w'' = figures toy_done.
Proof.
  apply (rerun_is_idempotent toy_describe_object toy_format_values toy_str_number
           toy_png_encode true sheet_first "a" results_dir empty_world toy_done).
  vm_compute. reflexivity.
Defined.

Lemma failed_run_prints_nothing_witness :
  stdout (toy_analyse sheet_text "t" results_dir empty_world).2 = stdout empty_world.
Proof.
  apply (failed_run_prints_nothing toy_describe_object toy_format_values toy_str_number
           toy_png_encode true sheet_text "t" results_dir empty_world
           (ValueError "boxplot method requires numerical columns, nothing to plot.")).
  vm_compute. reflexivity.
Defined.

Lemma text_column_partial_run_witness :
  ∃ e w',
    toy_analyse sheet_text "t" results_dir empty_world = (inl e, w') ∧
    fs w' !! (results_dir // "summary_statistics.txt")
    = Some (File (((("Summary statistics" +:+ nl) +:+
                    to_string toy_format_values
                      (describe toy_describe_object (StrCol [Some "x"; None; Some "x"]))) +:+
                   (nl +:+ nl)) +:+
                  ("Mode: " +:+
                   str_mode toy_str_number
                     (head (col_mode (StrCol [Some "x"; None; Some "x"]))) +:+ nl))) ∧
    fs w' !! (results_dir // "boxplot.png") = fs empty_world !! (results_dir // "boxplot.png") ∧
    length (figures w') = S (length (figures empty_world)).
Proof.
  apply (text_column_partial_run toy_describe_object toy_format_values toy_str_number
           toy_png_encode true sheet_text "t" results_dir empty_world
           [Some "x"; None; Some "x"] results_fs).
  - reflexivity.
  - vm_compute. reflexivity.
  - reflexivity.
Defined.


Lemma main_missing_data_file_witness :
  ∃ w', toy_main args_nowhere disk_world
        = (inl (Raised (FileNotFoundError (toy_Path "nowhere.csv"))), w') ∧
        fs w' = fs disk_world ∧
        figures w' = figures disk_world ∧
        last (stdout w') =
          Some ("Warning: " +:+ path_str (toy_Path "nowhere.csv") +:+
                " does not exist on this environment. " +:+
                "Confirm the path when running in Google Colab.").
Proof.
  apply (main_missing_data_file toy_parse_csv toy_parse_excel toy_describe_object
           toy_format_values toy_str_number toy_png_encode true toy_Path None
           (toy_parse_args args_nowhere) toy_frame_steps
           disk_world args_nowhere disk_world).
  - reflexivity.
  - right. reflexivity.
  - reflexivity.
Defined.


